(** * Prometh-Review: the pull-request review pipeline of [prometh_cli.py]

    A shallow embedding of [src/prometh/prometh_cli.py]: the Stash provider
    ([StashAPI]), the construction of the two [git diff] command lines, the
    prompt builder and first LLM round trip ([analyze_pr_with_GPT]), the
    backend dispatch ([generate_llm_response]) and the interactive loop of
    [main].

    Python values coming from JSON are modelled by [pyval]; exceptions by
    [exn]; every call that leaves the process (HTTP, subprocess, the OpenAI
    client, the console) is recorded in an event log and answered by an
    oracle of the [World], which may depend on the whole history.  An event
    records that the call was made, with its arguments; whether the
    collaborator then does its work or raises is the oracle's answer (the
    HTTP library refuses an address without a scheme, the console refuses
    text it cannot read as markup).  The
    [messages] list, one object that [analyze_pr_with_GPT] creates and
    [main] keeps appending to, lives in the state, so that what has been
    appended is still visible when a call raises.

    A [str] is a [string]; [len] is [String.length].  Python counts code
    points where [String.length] counts characters of [ascii]; the program
    only ever compares a length with 0. *)

From Stdlib Require Import ZArith String Ascii List DecimalString Lia.
From stdpp Require Import base gmap strings list.

Set Warnings "-register-all".
Local Open Scope Z_scope.
Local Open Scope string_scope.
Local Open Scope list_scope.

(** ** Python values *)

Module Py.

(** JSON-shaped Python values.  A JSON number with a fraction or an exponent
    is kept as its literal text ([PFloat]): the program never computes with
    one.  Dictionaries obtained from JSON have string keys only. *)
Inductive pyval : Type :=
  | PNone
  | PBool (b : bool)
  | PInt (z : Z)
  | PFloat (literal : string)
  | PStr (s : string)
  | PList (l : list pyval)
  | PDict (d : gmap string pyval).

(** Why a [TypeError] was raised. *)
Inductive type_error : Type :=
  | NotSubscriptable (v : pyval)
  | BadIndex (container index : pyval)
  | MissingPositional (func param : string).

(** The exceptions the program can meet.  [Exception_] is a bare
    [raise Exception(msg)] of the program itself; whatever is raised inside
    an external collaborator (requests, subprocess, the OpenAI client) is an
    [ExternalError].  [SystemExit] is what [exit(code)] raises. *)
Inductive exn : Type :=
  | KeyError (key : pyval)
  | IndexError
  | TypeError (why : type_error)
  | ValueError (msg : string)
  | NotImplementedError (msg : string)
  | Exception_ (msg : string)
  | EOFError
  | SystemExit (code : Z)
  | ExternalError (info : string).

(** [except Exception] catches everything but [SystemExit]. *)
Definition is_Exception (e : exn) : bool :=
  match e with
  | SystemExit _ => false
  | _ => true
  end.

(** [except KeyError]. *)
Definition is_KeyError (e : exn) : bool :=
  match e with
  | KeyError _ => true
  | _ => false
  end.

Inductive result (A : Type) : Type :=
  | Ok (a : A)
  | Raise (e : exn).
Arguments Ok {A} a.
Arguments Raise {A} e.

(** The line feed, Python's ["\n"]. *)
Definition LF : string := String "010"%char EmptyString.

(** [str(n)] for an [int]. *)
Definition str_of_int (z : Z) : string := NilEmpty.string_of_int (Z.to_int z).

(** Python sequence indexing [l[i]]: negative indices count from the end. *)
Definition seq_index {A : Type} (l : list A) (i : Z) : option A :=
  let n := Z.of_nat (length l) in
  if ((0 <=? i) && (i <? n))%Z then l !! Z.to_nat i
  else if ((- n <=? i) && (i <? 0))%Z then l !! Z.to_nat (n + i)%Z
  else None.

(** [v[key]] for a string [key]. *)
Definition getitem_str (v : pyval) (key : string) : result pyval :=
  match v with
  | PDict d =>
      match d !! key with
      | Some x => Ok x
      | None => Raise (KeyError (PStr key))
      end
  | PList _ | PStr _ => Raise (TypeError (BadIndex v (PStr key)))
  | _ => Raise (TypeError (NotSubscriptable v))
  end.

(** [v[i]] for an integer [i]. *)
Definition getitem_int (v : pyval) (i : Z) : result pyval :=
  match v with
  | PDict _ => Raise (KeyError (PInt i))
  | PList l =>
      match seq_index l i with
      | Some x => Ok x
      | None => Raise IndexError
      end
  | PStr s =>
      match seq_index (list_ascii_of_string s) i with
      | Some c => Ok (PStr (String c EmptyString))
      | None => Raise IndexError
      end
  | _ => Raise (TypeError (NotSubscriptable v))
  end.

(** A function argument at a call site: supplied or left out. *)
Inductive arg (A : Type) : Type :=
  | Supplied (a : A)
  | Omitted.
Arguments Supplied {A} a.
Arguments Omitted {A}.

End Py.
Export Py.

(** ** Data of the program *)

(** A chat message, the dict [{"role": ..., "content": ...}]. *)
Record message : Type := Message {
  role : string;
  content : pyval
}.

(** [chat_completion.usage] of the OpenAI client. *)
Record CompletionUsage : Type := {
  completion_tokens : Z;
  prompt_tokens : Z;
  total_tokens : Z
}.

(** The part of the OpenAI client's answer that the program reads: the
    [choices], each reduced to its [.message.content], and [usage]. *)
Record ChatCompletion : Type := {
  choices : list pyval;
  usage : option CompletionUsage
}.

(** The JSON body posted to a self-hosted backend:
    [{"model": gpt_type, "messages": messages, "temperature": 0.7}];
    the temperature is kept as its literal. *)
Record PostData : Type := {
  pd_model : string;
  pd_messages : list message;
  pd_temperature : string
}.

(** The parsed command line ([argparse.Namespace]) after [get_args]. *)
Record Args : Type := {
  base_url : string;
  project_key : string;
  llm_type : string;
  llm_url : option string;
  nb_context_lines : Z;
  repo : string;
  pull_request_id : Z;
  show_diff_only : bool;
  interactive : bool;
  exhaustive_analysis : bool;
  show_prompt : bool;
  exclude_file_types : list string;
  service : string
}.

(** ** Effects *)

(** The calls the program makes to the outside, in order: an event says
    that the call was made with these arguments, not that it succeeded. *)
Inductive Event : Type :=
  | EPrint (s : string)
  | EPrintError (e : exn)
  | EConsolePrint (s : string)
  | EConsoleMarkdown (text : pyval)
  | EConsoleTable (title : string) (rows : list (string * string))
  | EConsoleInput (prompt answer : string)
  | EHttpGet (url : string) (headers : list (string * string))
  | EHttpPost (url : string) (headers : list (string * string)) (body : PostData)
  | EOpenAICreate (api_key : option string) (model : string) (messages : list message)
  | ESubprocess (cmd : list pyval).

(** The answer of an external collaborator. *)
Inductive ext (A : Type) : Type :=
  | Returned (a : A)
  | Failed (info : string).
Arguments Returned {A} a.
Arguments Failed {A} info.

(** The environment of one run.  Every oracle receives the events so far. *)
Record World : Type := {
  environ : gmap string string;
  requests_get_json :
    list Event -> string -> list (string * string) -> ext pyval;
  requests_post_json :
    list Event -> string -> list (string * string) -> PostData -> ext pyval;
  chat_completions_create :
    list Event -> option string -> string -> list message -> ext ChatCompletion;
  subprocess_check_output : list Event -> list pyval -> ext string;
  console_render : list Event -> Event -> ext unit;
  py_repr : pyval -> string
}.

(** The mutable state: the event log and the one [messages] list object. *)
Record State : Type := {
  st_log : list Event;
  st_messages : list message
}.

Module Eff.

Definition M (A : Type) : Type := State -> result A * State.

Definition ret {A : Type} (a : A) : M A := fun st => (Ok a, st).

Definition raise {A : Type} (e : exn) : M A := fun st => (Raise e, st).

Definition bind {A B : Type} (m : M A) (k : A -> M B) : M B :=
  fun st =>
    match m st with
    | (Ok a, st') => k a st'
    | (Raise e, st') => (Raise e, st')
    end.

(** [try: m except <class> as e: h e], the class given by [catches]. *)
Definition try_except {A : Type} (catches : exn -> bool) (m : M A) (h : exn -> M A) : M A :=
  fun st =>
    match m st with
    | (Ok a, st') => (Ok a, st')
    | (Raise e, st') => if catches e then h e st' else (Raise e, st')
    end.

Definition lift {A : Type} (r : result A) : M A := fun st => (r, st).

Definition emit (ev : Event) : M unit :=
  fun st => (Ok tt, {| st_log := st_log st ++ [ev]; st_messages := st_messages st |}).

(** An external call: the oracle sees the history, the call is logged. *)
Definition external {A : Type} (oracle : list Event -> ext A) (ev : Event) : M A :=
  fun st =>
    let st' := {| st_log := st_log st ++ [ev]; st_messages := st_messages st |} in
    match oracle (st_log st) with
    | Returned a => (Ok a, st')
    | Failed info => (Raise (ExternalError info), st')
    end.

Definition get_messages : M (list message) := fun st => (Ok (st_messages st), st).

Definition set_messages (ms : list message) : M unit :=
  fun st => (Ok tt, {| st_log := st_log st; st_messages := ms |}).

(** [messages.append(m)]. *)
Definition append_message (m : message) : M unit :=
  fun st => (Ok tt, {| st_log := st_log st; st_messages := st_messages st ++ [m] |}).

(** [exit(code)]. *)
Definition exit {A : Type} (code : Z) : M A := raise (SystemExit code).

End Eff.
Export Eff.

Declare Scope eff_scope.
Delimit Scope eff_scope with eff.
Notation "x <- m ;; k" := (bind m (fun x => k))
  (at level 100, m at next level, right associativity) : eff_scope.
Notation "m ;; k" := (bind m (fun _ => k))
  (at level 100, right associativity) : eff_scope.
Local Open Scope eff_scope.

(** ** Formatting *)

(** [str(v)], as an f-string or [str()] renders a value.  Python's [repr] of
    floats and containers is not part of the program: it is the [py_repr] of
    the world. *)
Definition py_format (w : World) (v : pyval) : string :=
  match v with
  | PStr s => s
  | PNone => "None"
  | PBool true => "True"
  | PBool false => "False"
  | PInt z => str_of_int z
  | _ => py_repr w v
  end.

(** A call of the console ([console.print] of a text, a table or a
    [Markdown]) whose argument holds data of the run: the console reads
    texts and table cells as markup and may raise on them, and [Markdown]
    raises on a value that is not a string.  A [console.print] of a fixed,
    well-formed literal is a plain [emit]. *)
Definition console_call (w : World) (ev : Event) : M unit :=
  external (fun h => console_render w h ev) ev.

(** An [Optional[str]] as a Python value. *)
Definition of_optional (o : option string) : pyval :=
  match o with
  | Some s => PStr s
  | None => PNone
  end.

(** The lines of a triple-quoted literal, joined by line feeds. *)
Definition unlines (ls : list string) : string := String.concat LF ls.

(** ** The Stash provider *)

Module StashAPI.

Record t : Type := {
  stash_token : pyval;
  api_base_url : string;
  api_project_key : string;
  repo_slug : string;
  pr_id : Z;
  headers : list (string * string)
}.

(** [os.environ[key]]. *)
Definition os_environ_getitem (w : World) (key : string) : M pyval :=
  match environ w !! key with
  | Some v => ret (PStr v)
  | None => raise (KeyError (PStr key))
  end.

(** [StashAPI.__init__]. *)
Definition __init__ (w : World) (base_url project_key repo_slug : string) (pr_id : Z) : M t :=
  stash_token <- os_environ_getitem w "STASH_HTTP_ACCESS_TOKEN";;
  match stash_token with
  | PNone => raise (ValueError "STASH_HTTP_ACCESS_TOKEN is not set")
  | _ =>
      ret {| stash_token := stash_token;
             api_base_url := base_url;
             api_project_key := project_key;
             repo_slug := repo_slug;
             pr_id := pr_id;
             headers := [("Authorization", "Bearer " +:+ py_format w stash_token);
                         ("Accept", "application/json")] |}
  end.

Definition url_info (self : t) : string :=
  "http://" +:+ api_base_url self +:+ "/rest/api/latest/projects/" +:+ api_project_key self
    +:+ "/repos/" +:+ repo_slug self +:+ "/pull-requests/" +:+ str_of_int (pr_id self).

Definition url_diff (self : t) : string :=
  url_info self +:+ "/diff".

Definition _get_repo_info_from_stash (w : World) (self : t) : M pyval :=
  external (fun h => requests_get_json w h (url_info self) (headers self))
           (EHttpGet (url_info self) (headers self)).

Definition _get_repo_diff_data_from_stash (w : World) (self : t) : M pyval :=
  external (fun h => requests_get_json w h (url_diff self) (headers self))
           (EHttpGet (url_diff self) (headers self)).

(** The dict returned by [get_data], in the order it is built. *)
Record data : Type := {
  to_commit : pyval;
  from_commit : pyval;
  pr_title : pyval;
  pr_description : pyval;
  pr_link : pyval
}.

(** [StashAPI.get_data]. *)
Definition get_data (w : World) (self : t) : M data :=
  pr_info_data <- _get_repo_info_from_stash w self;;
  pr_diff_data <- _get_repo_diff_data_from_stash w self;;
  to_commit <- lift (getitem_str pr_diff_data "toHash");;
  from_commit <- lift (getitem_str pr_diff_data "fromHash");;
  pr_title <- lift (getitem_str pr_info_data "title");;
  pr_description <-
    try_except is_KeyError
      (lift (getitem_str pr_info_data "description"))
      (fun _ => ret (PStr EmptyString));;
  links <- lift (getitem_str pr_info_data "links");;
  self_links <- lift (getitem_str links "self");;
  first <- lift (getitem_int self_links 0);;
  pr_link <- lift (getitem_str first "href");;
  ret {| to_commit := to_commit;
         from_commit := from_commit;
         pr_title := pr_title;
         pr_description := pr_description;
         pr_link := pr_link |}.

End StashAPI.

(** ** The LLM client *)

Definition OPENAI_GPT_TYPES : gset string :=
  {[ "gpt-3.5-turbo"; "gpt-3.5-turbo-16k"; "gpt-3.5-turbo-0301"; "gpt-4" ]}.

(** [generate_llm_response(gpt_type, messages, llm_url)].  The two initial
    assignments to [response] and [usage_metrics] are overwritten on both
    branches and left out.  Building the client and
    [client.chat.completions.create] are one external call. *)
Definition generate_llm_response (w : World) (gpt_type : string)
    (messages : list message) (llm_url : option string)
    : M (pyval * option CompletionUsage) :=
  if bool_decide (gpt_type ∈ OPENAI_GPT_TYPES) then
    match environ w !! "OPENAI_API_KEY" with
    | None => raise (ValueError "OPENAI_API_KEY is not set")
    | Some _ =>
        let api_key := environ w !! "OPENAI_API_KEY" in
        chat_completion <-
          external (fun h => chat_completions_create w h api_key gpt_type messages)
                   (EOpenAICreate api_key gpt_type messages);;
        response <-
          lift (match seq_index (choices chat_completion) 0 with
                | Some c => Ok c
                | None => Raise IndexError
                end);;
        ret (response, usage chat_completion)
    end
  else
    let url := py_format w (of_optional llm_url) +:+ "/v1/chat/completions" in
    let headers := [("Content-Type", "application/json")] in
    let data := {| pd_model := gpt_type; pd_messages := messages; pd_temperature := "0.7" |} in
    resp_json <-
      external (fun h => requests_post_json w h url headers data)
               (EHttpPost url headers data);;
    resp_choices <- lift (getitem_str resp_json "choices");;
    first <- lift (getitem_int resp_choices 0);;
    msg <- lift (getitem_str first "message");;
    response <- lift (getitem_str msg "content");;
    ret (response, None).

(** A call of [generate_llm_response] with its first two arguments and,
    maybe, the third: the parameter [llm_url] has no default value. *)
Definition call_generate_llm_response (w : World) (gpt_type : string)
    (messages : list message) (llm_url : arg (option string))
    : M (pyval * option CompletionUsage) :=
  match llm_url with
  | Supplied u => generate_llm_response w gpt_type messages u
  | Omitted => raise (TypeError (MissingPositional "generate_llm_response" "llm_url"))
  end.

(** ** The prompt *)

Definition prompt : string :=
  unlines [
    "As a tech reviewer, please provide an in-depth review of the";
    "following pull request git diff data. Your task is to carefully analyze the title, body, and";
    "changes made in the pull request and identify any problems that need addressing including ";
    "security issues. Please provide clear descriptions of each problem and offer constructive ";
    "suggestions for how to address them. Additionally, please consider ways to optimize the ";
    "changes made in the pull request. You should focus on providing feedback that will help";
    "improve the quality of the codebase while also remaining concise and clear in your";
    "explanations. Please note that unnecessary explanations or summaries should be avoided";
    "as they may delay the review process. Your feedback should be provided in a timely";
    "manner, using language that is easy to understand and follow.";
    EmptyString;
    "You are provided with the code changes (diffs) in a unidiff format.";
    EmptyString;
    "Your output should be a short summary of the changes and then a more detailed in a table format with the following columns:";
    "- Problem category: Bug, Security, Optimization, etc.";
    "- File name";
    "- Line number(s)";
    "- Description of the problem - where code can be included";
    "- Suggestion for improvement - where code can be included";
    "- Example code/solution";
    EmptyString ].

Definition pr_description_message (w : World) (pr_title pr_description : pyval) : string :=
  unlines [
    "A description was given to help you assist in understand why these changes were made.";
    "    The description was provided in a markdown format.";
    EmptyString;
    "    Title: " +:+ py_format w pr_title;
    "    Description: " +:+ py_format w pr_description;
    "    " ].

Definition diff_message (diff_output : string) : string :=
  unlines [
    "Diff in unidiff format:";
    EmptyString;
    "    " +:+ diff_output;
    "    " ].

Definition final_message : string :=
  unlines [
    "All code changes have been provided.";
    "    Please provide me with your concise code review based on all the changes, context & title provided";
    "    " ].

(** The list literal [messages] of [analyze_pr_with_GPT]. *)
Definition seed_messages (w : World) (pr_title pr_description : pyval)
    (diff_output : string) : list message :=
  [ Message "system" (PStr prompt);
    Message "user" (PStr (pr_description_message w pr_title pr_description));
    Message "user" (PStr (diff_message diff_output));
    Message "user" (PStr final_message) ].

(** [analyze_pr_with_GPT]. *)
Definition analyze_pr_with_GPT (w : World) (pr_title pr_description : pyval)
    (diff_output : string) (gpt_type : string) (print_prompt : bool)
    (llm_url : option string)
    : M (pyval * option CompletionUsage * list message) :=
  set_messages (seed_messages w pr_title pr_description diff_output);;
  (if print_prompt
   then emit (EPrint (String.concat LF
                        [prompt; pr_description_message w pr_title pr_description;
                         diff_message diff_output; final_message]))
   else ret tt);;
  messages <- get_messages;;
  r <- call_generate_llm_response w gpt_type messages (Supplied llm_url);;
  append_message (Message "assistant" (fst r));;
  messages <- get_messages;;
  ret (fst r, snd r, messages).

(** ** The command-line program *)

(** [vars(args)], in the order the arguments are declared. *)
Definition vars (args : Args) : list (string * pyval) :=
  [ ("base_url", PStr (base_url args));
    ("project_key", PStr (project_key args));
    ("llm_type", PStr (llm_type args));
    ("llm_url", of_optional (llm_url args));
    ("nb_context_lines", PInt (nb_context_lines args));
    ("repo", PStr (repo args));
    ("pull_request_id", PInt (pull_request_id args));
    ("show_diff_only", PBool (show_diff_only args));
    ("interactive", PBool (interactive args));
    ("exhaustive_analysis", PBool (exhaustive_analysis args));
    ("show_prompt", PBool (show_prompt args));
    ("exclude_file_types", PList (map PStr (exclude_file_types args)));
    ("service", PStr (service args)) ].

(** A two-column table whose second column is [str(value)]. *)
Definition console_print_table (w : World) (title : string)
    (items : list (string * pyval)) : M unit :=
  console_call w
    (EConsoleTable title (map (fun kv => (fst kv, py_format w (snd kv))) items)).

(** [data.items()]. *)
Definition data_items (d : StashAPI.data) : list (string * pyval) :=
  [ ("to_commit", StashAPI.to_commit d);
    ("from_commit", StashAPI.from_commit d);
    ("pr_title", StashAPI.pr_title d);
    ("pr_description", StashAPI.pr_description d);
    ("pr_link", StashAPI.pr_link d) ].

(** The selection of the provider in [main]. *)
Definition make_api (w : World) (args : Args) : M StashAPI.t :=
  if String.eqb (service args) "stash" || String.eqb (service args) "bitbucket" then
    StashAPI.__init__ w (base_url args) (project_key args) (repo args) (pull_request_id args)
  else if String.eqb (service args) "github" then
    raise (NotImplementedError "GitHub is not implemented yet")
  else
    emit (EPrint "Manual mode...");;
    raise (NotImplementedError "Manual mode is not implemented yet").

(** The guarded [api.get_data()] of [main]. *)
Definition fetch_data (w : World) (api : StashAPI.t) : M StashAPI.data :=
  try_except is_Exception
    (StashAPI.get_data w api)
    (fun e =>
       emit (EPrintError e);;
       emit (EPrint "Problems... but I am not going to handle it. Happy debugging sucker");;
       exit 1).

(** The first [_cmd]: the name-status listing. *)
Definition name_status_cmd (from_commit to_commit : pyval) : list pyval :=
  [PStr "git"; PStr "diff"; PStr "--name-status"; from_commit; to_commit].

(** [_diff_filter]. *)
Definition _diff_filter (args : Args) : string :=
  let _diff_filter := "M" in
  if exhaustive_analysis args then _diff_filter +:+ "A" else _diff_filter.

(** The second [_cmd]: the unified diff. *)
Definition unified_diff_cmd (args : Args) (from_commit to_commit : pyval) : list pyval :=
  let _cmd :=
    [PStr "git"; PStr "diff";
     PStr ("--diff-filter=" +:+ _diff_filter args);
     PStr ("-U" +:+ str_of_int (nb_context_lines args));
     from_commit; to_commit] in
  if (0 <? length (exclude_file_types args))%nat then
    (_cmd ++ [PStr "--"; PStr "."])
      ++ map (fun t => PStr (":(exclude)*" +:+ t)) (exclude_file_types args)
  else _cmd.

(** [diff_output]. *)
Definition combine_diff (diff_name_status_output diff_modified_output : string) : string :=
  (diff_name_status_output +:+ (LF +:+ LF)) +:+ diff_modified_output.

Definition no_modifications_notice : string :=
  "No file modifications in the PR. But new and deleted files might be present.".

Definition no_diff_output_message : string :=
  "No diff output. Something is wrong, but I don't care.".

(** The two [git diff] calls of [main] and what follows them, up to the
    call of [analyze_pr_with_GPT]. *)
Definition compute_diff (w : World) (args : Args) (d : StashAPI.data) : M string :=
  let from_commit := StashAPI.from_commit d in
  let to_commit := StashAPI.to_commit d in
  let _cmd := name_status_cmd from_commit to_commit in
  diff_name_status_output <-
    external (fun h => subprocess_check_output w h _cmd) (ESubprocess _cmd);;
  let _cmd := unified_diff_cmd args from_commit to_commit in
  diff_modified_output <-
    external (fun h => subprocess_check_output w h _cmd) (ESubprocess _cmd);;
  (if (String.length diff_modified_output =? 0)%nat
   then emit (EPrint no_modifications_notice)
   else ret tt);;
  let diff_output := combine_diff diff_name_status_output diff_modified_output in
  (if show_diff_only args
   then
     emit (EConsolePrint ("[bold]Showing only the git diff output:[/bold]" +:+ LF));;
     console_call w (EConsolePrint diff_output);;
     exit 0
   else ret tt);;
  (if (String.length diff_output =? 0)%nat
   then raise (Exception_ no_diff_output_message)
   else ret tt);;
  ret diff_output.

(** One pass through the body of the [while True] loop after the test for
    the exit word. *)
Definition chat_turn (w : World) (args : Args) (user_input : string) : M unit :=
  emit (EPrint LF);;
  append_message (Message "user" (PStr user_input));;
  messages <- get_messages;;
  r <- call_generate_llm_response w (llm_type args) messages Omitted;;
  append_message (Message "assistant" (fst r));;
  console_call w
    (EConsolePrint ("[cyan][bold]AI:[/bold] " +:+ py_format w (fst r) +:+ LF +:+ "[cyan]")).

(** The [while True] loop.  [inputs] is what the user will type, line by
    line; reading past its end raises [EOFError]. *)
Fixpoint interactive_chat (w : World) (args : Args) (inputs : list string) : M unit :=
  match inputs with
  | [] => raise EOFError
  | user_input :: rest =>
      emit (EConsoleInput "[magenta][bold]You:[/bold][/magenta] " user_input);;
      if String.eqb user_input "exit" then exit 0
      else
        chat_turn w args user_input;;
        interactive_chat w args rest
  end.

(** [main] from the call of [analyze_pr_with_GPT] on. *)
Definition review (w : World) (args : Args) (d : StashAPI.data)
    (diff_output : string) (inputs : list string) : M unit :=
  r <- analyze_pr_with_GPT w (StashAPI.pr_title d) (StashAPI.pr_description d) diff_output
         (llm_type args) (show_prompt args) (llm_url args);;
  let analyzis_message := fst (fst r) in
  let usage_metrics := snd (fst r) in
  match usage_metrics with
  | Some u =>
      console_print_table w "OpenAPI Usage Metrics"
        [ ("completion_tokens", PInt (completion_tokens u));
          ("prompt_tokens", PInt (prompt_tokens u));
          ("total_tokens", PInt (total_tokens u)) ]
  | None => ret tt
  end;;
  emit (EConsolePrint ("[magenta][bold]------ Analyzis: ------[/bold][/magenta]" +:+ LF));;
  console_call w (EConsoleMarkdown analyzis_message);;
  emit (EPrint LF);;
  if interactive args then
    emit (EConsolePrint ("[cyan][bold]------ Interactive chatting: ------[/bold][/cyan]" +:+ LF));;
    emit (EConsolePrint "You can chat with the AI about the PR");;
    emit (EConsolePrint ("Press `CTRL+C` or type 'exit' [red]to exit[/red] the interactive chatting" +:+ LF));;
    interactive_chat w args inputs
  else ret tt.

(** [main], given the parsed arguments and the lines the user will type. *)
Definition main (w : World) (args : Args) (inputs : list string) : M unit :=
  console_print_table w "Arguments" (vars args);;
  api <- make_api w args;;
  d <- fetch_data w api;;
  console_print_table w "Info" (data_items d);;
  diff_output <- compute_diff w args d;;
  review w args d diff_output inputs.

(** The state a run starts from. *)
Definition initial_state : State := {| st_log := []; st_messages := [] |}.

(** ** A concrete world and invocation

    A Stash server that knows pull request 85 of MSYS/manager (without a
    description), a git that reports one modified file and, for the unified
    diff, nothing, a hosted backend and a self-hosted one. *)

Module Example.

Definition TAB : string := String "009"%char EmptyString.

Definition info_fields : gmap string pyval :=
  {[ "title" := PStr "Fix parser";
     "links" := PDict {[ "self" := PList [PDict {[ "href" := PStr "http://stash.local/pr/85" ]}] ]} ]}.

Definition diff_fields : gmap string pyval :=
  {[ "fromHash" := PStr "a1"; "toHash" := PStr "b2" ]}.

Definition get_json (h : list Event) (url : string) (hd : list (string * string)) : ext pyval :=
  if String.eqb url "http://stash.local/rest/api/latest/projects/MSYS/repos/manager/pull-requests/85"
  then Returned (PDict info_fields)
  else if String.eqb url "http://stash.local/rest/api/latest/projects/MSYS/repos/manager/pull-requests/85/diff"
  then Returned (PDict diff_fields)
  else Failed "404".

(** The HTTP library refuses an address without a scheme. *)
Definition has_scheme (url : string) : bool :=
  String.prefix "http://" url || String.prefix "https://" url.

Definition post_json (h : list Event) (url : string) (hd : list (string * string))
    (body : PostData) : ext pyval :=
  if has_scheme url then
    Returned (PDict {[ "choices" :=
      PList [PDict {[ "message" := PDict {[ "content" := PStr "local reply" ]} ]}] ]})
  else Failed "MissingSchema: No scheme supplied".

(** A text without an opening bracket holds no markup tag. *)
Definition plain (s : string) : bool :=
  forallb (fun c => negb (Ascii.eqb c "["%char)) (list_ascii_of_string s).

(** A console that renders plain texts, tables of plain cells and the
    Markdown of a string, and refuses everything else. *)
Definition render (h : list Event) (ev : Event) : ext unit :=
  match ev with
  | EConsolePrint s =>
      if plain s then Returned tt else Failed "MarkupError"
  | EConsoleTable _ rows =>
      if forallb (fun kv => plain (fst kv) && plain (snd kv)) rows
      then Returned tt else Failed "MarkupError"
  | EConsoleMarkdown (PStr _) => Returned tt
  | EConsoleMarkdown _ => Failed "TypeError"
  | _ => Returned tt
  end.

Definition create (h : list Event) (key : option string) (model : string)
    (ms : list message) : ext ChatCompletion :=
  Returned {| choices := [PStr "LGTM"];
              usage := Some {| completion_tokens := 2; prompt_tokens := 40; total_tokens := 42 |} |}.

Definition check_output (h : list Event) (cmd : list pyval) : ext string :=
  match cmd with
  | _ :: _ :: PStr "--name-status" :: _ => Returned ("M" +:+ TAB +:+ "file.py")
  | _ => Returned EmptyString
  end.

Definition world : World :=
  {| environ := {[ "STASH_HTTP_ACCESS_TOKEN" := "s3cr3t"; "OPENAI_API_KEY" := "sk-test" ]};
     requests_get_json := get_json;
     requests_post_json := post_json;
     chat_completions_create := create;
     subprocess_check_output := check_output;
     console_render := render;
     py_repr := fun _ => "<repr>" |}.

Definition args : Args :=
  {| base_url := "stash.local";
     project_key := "MSYS";
     llm_type := "gpt-4";
     llm_url := None;
     nb_context_lines := 10;
     repo := "manager";
     pull_request_id := 85;
     show_diff_only := false;
     interactive := true;
     exhaustive_analysis := false;
     show_prompt := false;
     exclude_file_types := ["md"];
     service := "stash" |}.

Definition api : StashAPI.t :=
  {| StashAPI.stash_token := PStr "s3cr3t";
     StashAPI.api_base_url := "stash.local";
     StashAPI.api_project_key := "MSYS";
     StashAPI.repo_slug := "manager";
     StashAPI.pr_id := 85;
     StashAPI.headers := [("Authorization", "Bearer s3cr3t"); ("Accept", "application/json")] |}.

Definition data : StashAPI.data :=
  {| StashAPI.to_commit := PStr "b2";
     StashAPI.from_commit := PStr "a1";
     StashAPI.pr_title := PStr "Fix parser";
     StashAPI.pr_description := PStr EmptyString;
     StashAPI.pr_link := PStr "http://stash.local/pr/85" |}.

(** What the example git prints: one modified file, an empty unified diff. *)
Definition name_status : string := "M" +:+ TAB +:+ "file.py".

Definition diff_output : string := combine_diff name_status EmptyString.

Definition usage_metrics : CompletionUsage :=
  {| completion_tokens := 2; prompt_tokens := 40; total_tokens := 42 |}.

(** The same world without the Stash token. *)
Definition world_without_token : World :=
  {| environ := {[ "OPENAI_API_KEY" := "sk-test" ]};
     requests_get_json := get_json;
     requests_post_json := post_json;
     chat_completions_create := create;
     subprocess_check_output := check_output;
     console_render := render;
     py_repr := fun _ => "<repr>" |}.

End Example.

(** ** Argument validation and the entry point *)

(** What [parser.parse_args()] hands to the checks of [get_args]: the
    namespace in which [--base-url] and [--project-key], declared without a
    default, may still be [None].  Parsing itself (the command line and the
    defaults of [~/.promethrc.json]) is the argument parser's business. *)
Record Namespace : Type := {
  ns_base_url : option string;
  ns_project_key : option string;
  ns_llm_type : string;
  ns_llm_url : option string;
  ns_nb_context_lines : Z;
  ns_repo : string;
  ns_pull_request_id : Z;
  ns_show_diff_only : bool;
  ns_interactive : bool;
  ns_exhaustive_analysis : bool;
  ns_show_prompt : bool;
  ns_exclude_file_types : list string;
  ns_service : string
}.

(** The two checks at the end of [get_args]. *)
Definition get_args (ns : Namespace) : result Args :=
  match ns_base_url ns with
  | None => Raise (ValueError "Base URL is not set")
  | Some base =>
      match ns_project_key ns with
      | None => Raise (ValueError "Project key is not set")
      | Some project =>
          Ok {| base_url := base;
                project_key := project;
                llm_type := ns_llm_type ns;
                llm_url := ns_llm_url ns;
                nb_context_lines := ns_nb_context_lines ns;
                repo := ns_repo ns;
                pull_request_id := ns_pull_request_id ns;
                show_diff_only := ns_show_diff_only ns;
                interactive := ns_interactive ns;
                exhaustive_analysis := ns_exhaustive_analysis ns;
                show_prompt := ns_show_prompt ns;
                exclude_file_types := ns_exclude_file_types ns;
                service := ns_service ns |}
      end
  end.

(** [main()] as the entry point calls it: [get_args()], then the rest. *)
Definition main_entry (w : World) (ns : Namespace) (inputs : list string) : M unit :=
  args <- lift (get_args ns);;
  main w args inputs.

(** ** The prototype script [test.py] *)

Module TestScript.

Definition BASE_URL : string := "stash.doclerholding.com".
Definition PROJECT_KEY : string := "MSYS".
Definition REPOSITORY_SLUG : string := "manager".
Definition PR_ID : string := "85".

Definition URL : string :=
  "http://" +:+ BASE_URL +:+ "/rest/api/latest/projects/" +:+ PROJECT_KEY
    +:+ "/repos/" +:+ REPOSITORY_SLUG +:+ "/pull-requests/" +:+ PR_ID +:+ "/diff".

(** The module body of [test.py], top to bottom. *)
Definition script (w : World) : M unit :=
  TOKEN <- StashAPI.os_environ_getitem w "STASH_HTTP_ACCESS_TOKEN";;
  match TOKEN with
  | PNone =>
      raise (Exception_ "Please set the environment variable 'STASH_HTTP_ACCESS_TOKEN'")
  | _ =>
      let HEADERS := [("Authorization", "Bearer " +:+ py_format w TOKEN);
                      ("Accept", "application/json")] in
      response_json <-
        external (fun h => requests_get_json w h URL HEADERS) (EHttpGet URL HEADERS);;
      emit (EPrint (py_format w response_json))
  end.

End TestScript.

(** ** Further invocations and worlds *)

Module Scenario.

(** The example invocation with another service, model and flags. *)
Definition args_with (svc model : string) (diff_only chat : bool) : Args :=
  {| base_url := "stash.local";
     project_key := "MSYS";
     llm_type := model;
     llm_url := None;
     nb_context_lines := 10;
     repo := "manager";
     pull_request_id := 85;
     show_diff_only := diff_only;
     interactive := chat;
     exhaustive_analysis := false;
     show_prompt := false;
     exclude_file_types := ["md"];
     service := svc |}.

Definition args_github : Args := args_with "github" "gpt-4" false false.
Definition args_batch : Args := args_with "stash" "gpt-4" false false.
Definition args_diff_only : Args := args_with "stash" "gpt-4" true false.
Definition args_local : Args := args_with "stash" "llama-local" false false.

(** A parsed command line without [--base-url]. *)
Definition ns_no_base : Namespace :=
  {| ns_base_url := None;
     ns_project_key := None;
     ns_llm_type := "gpt-3.5-turbo";
     ns_llm_url := None;
     ns_nb_context_lines := 10;
     ns_repo := "manager";
     ns_pull_request_id := 85;
     ns_show_diff_only := false;
     ns_interactive := false;
     ns_exhaustive_analysis := false;
     ns_show_prompt := false;
     ns_exclude_file_types := [];
     ns_service := "stash" |}.

(** The example world with some of its collaborators replaced. *)
Definition world_with
    (get : list Event -> string -> list (string * string) -> ext pyval)
    (post : list Event -> string -> list (string * string) -> PostData -> ext pyval)
    (create : list Event -> option string -> string -> list message -> ext ChatCompletion)
    (check : list Event -> list pyval -> ext string) : World :=
  {| environ := {[ "STASH_HTTP_ACCESS_TOKEN" := "s3cr3t"; "OPENAI_API_KEY" := "sk-test" ]};
     requests_get_json := get;
     requests_post_json := post;
     chat_completions_create := create;
     subprocess_check_output := check;
     console_render := Example.render;
     py_repr := fun _ => "<repr>" |}.

(** The Stash server cannot be reached. *)
Definition world_unreachable : World :=
  world_with (fun _ _ _ => Failed "connection refused")
    Example.post_json Example.create Example.check_output.

(** The diff summary comes back as an empty JSON object. *)
Definition world_no_hashes : World :=
  world_with
    (fun _ url _ =>
       if String.eqb url
            "http://stash.local/rest/api/latest/projects/MSYS/repos/manager/pull-requests/85"
       then Returned (PDict Example.info_fields)
       else Returned (PDict ∅))
    Example.post_json Example.create Example.check_output.

(** The metadata has a [description] member holding JSON [null]. *)
Definition world_null_description : World :=
  world_with
    (fun _ url _ =>
       if String.eqb url
            "http://stash.local/rest/api/latest/projects/MSYS/repos/manager/pull-requests/85"
       then Returned (PDict (<[ "description" := PNone ]> Example.info_fields))
       else Returned (PDict Example.diff_fields))
    Example.post_json Example.create Example.check_output.

(** The self-hosted backend answers with an empty JSON object, and the
    hosted one fails. *)
Definition world_bad_backends : World :=
  world_with Example.get_json
    (fun _ url _ _ =>
       if Example.has_scheme url then Returned (PDict ∅)
       else Failed "MissingSchema: No scheme supplied")
    (fun _ _ _ _ => Failed "timeout") Example.check_output.


(** The working directory is not a git repository. *)
Definition world_no_git : World :=
  world_with Example.get_json Example.post_json Example.create
    (fun _ _ => Failed "not a git repository").

End Scenario.

(** ** Properties of computations *)

(** A computation that leaves the [messages] list alone. *)
Definition keeps_messages {A : Type} (m : M A) : Prop :=
  forall st, st_messages (snd (m st)) = st_messages st.

(** A computation that never ends in a bare [Exception]. *)
Definition no_bare_exception {A : Type} (m : M A) : Prop :=
  forall st msg, fst (m st) <> Raise (Exception_ msg).

(** A computation that adds to the log, and only events satisfying [P]. *)
Definition emits_only {A : Type} (P : Event -> Prop) (m : M A) : Prop :=
  forall st, exists evs, st_log (snd (m st)) = st_log st ++ evs /\ Forall P evs.

(** A computation that can only end in an exception. *)
Definition never_returns {A : Type} (m : M A) : Prop :=
  forall st a st', m st <> (Ok a, st').

(** A call of an LLM backend client, hosted or self-hosted. *)
Definition is_llm_request (ev : Event) : Prop :=
  match ev with
  | EOpenAICreate _ _ _ | EHttpPost _ _ _ => True
  | _ => False
  end.

(** The run of a [git] command. *)
Definition is_subprocess (ev : Event) : Prop :=
  match ev with
  | ESubprocess _ => True
  | _ => False
  end.

(** A line read from the user. *)
Definition is_console_input (ev : Event) : Prop :=
  match ev with
  | EConsoleInput _ _ => True
  | _ => False
  end.

(** The table of usage metrics. *)
Definition is_usage_table (ev : Event) : Prop :=
  match ev with
  | EConsoleTable title _ => title = "OpenAPI Usage Metrics"
  | _ => False
  end.

(** A computation whose exceptions are all caught by [except Exception]. *)
Definition raises_exceptions {A : Type} (m : M A) : Prop :=
  forall st e st', m st = (Raise e, st') -> is_Exception e = true.

(** The REST address of the pull request named on the command line. *)
Definition pull_request_url (args : Args) : string :=
  "http://" +:+ base_url args +:+ "/rest/api/latest/projects/" +:+ project_key args
    +:+ "/repos/" +:+ repo args +:+ "/pull-requests/" +:+ str_of_int (pull_request_id args).

(** Where credentials may go: an HTTP GET carries the Stash token [tok] and
    goes to the pull request's address or to its [/diff]; a POST to a
    self-hosted backend carries the content type and nothing else. *)
Definition credentials_policy (tok : string) (args : Args) (ev : Event) : Prop :=
  match ev with
  | EHttpGet url hd =>
      hd = [("Authorization", "Bearer " +:+ tok); ("Accept", "application/json")]
      /\ (url = pull_request_url args \/ url = pull_request_url args +:+ "/diff")
  | EHttpPost _ hd _ => hd = [("Content-Type", "application/json")]
  | _ => True
  end.


(** * Verification *)

(** ** Reasoning about runs *)

Section Runs.

Context {A B : Type}.

Lemma bind_ok (m : M A) (k : A -> M B) (st st' : State) (a : A) :
  m st = (Ok a, st') -> bind m k st = k a st'.
Proof. intros H. unfold bind. now rewrite H. Qed.

Lemma bind_raise (m : M A) (k : A -> M B) (st st' : State) (e : exn) :
  m st = (Raise e, st') -> bind m k st = (Raise e, st').
Proof. intros H. unfold bind. now rewrite H. Qed.

Lemma bind_inv_ok (m : M A) (k : A -> M B) (st st'' : State) (b : B) :
  bind m k st = (Ok b, st'') ->
  exists a st', m st = (Ok a, st') /\ k a st' = (Ok b, st'').
Proof.
  unfold bind. destruct (m st) as [[a|e] st'] eqn:E; intros H.
  - exists a, st'. split; [reflexivity | exact H].
  - discriminate H.
Qed.

End Runs.

Section Preservation.

Context {A B : Type}.

Lemma keeps_ret (a : A) : keeps_messages (ret a).
Proof. intros st. reflexivity. Qed.

Lemma keeps_raise (e : exn) : keeps_messages (@raise A e).
Proof. intros st. reflexivity. Qed.

Lemma keeps_lift (r : result A) : keeps_messages (lift r).
Proof. intros st. reflexivity. Qed.

Lemma keeps_emit (ev : Event) : keeps_messages (emit ev).
Proof. intros st. reflexivity. Qed.

Lemma keeps_external (oracle : list Event -> ext A) (ev : Event) :
  keeps_messages (external oracle ev).
Proof. intros st. unfold external. destruct (oracle (st_log st)); reflexivity. Qed.

Lemma keeps_bind (m : M A) (k : A -> M B) :
  keeps_messages m -> (forall a, keeps_messages (k a)) -> keeps_messages (bind m k).
Proof.
  intros Hm Hk st. unfold bind. specialize (Hm st).
  destruct (m st) as [[a|e] st']; simpl in *.
  - rewrite Hk. exact Hm.
  - exact Hm.
Qed.

Lemma nobare_ret (a : A) : no_bare_exception (ret a).
Proof. intros st msg. discriminate. Qed.

Lemma nobare_raise (e : exn) :
  (forall msg, e <> Exception_ msg) -> no_bare_exception (@raise A e).
Proof. intros He st msg H. simpl in H. injection H as H. exact (He msg H). Qed.

Lemma nobare_emit (ev : Event) : no_bare_exception (emit ev).
Proof. intros st msg. discriminate. Qed.

Lemma nobare_get_messages : no_bare_exception get_messages.
Proof. intros st msg. discriminate. Qed.

Lemma nobare_set_messages (ms : list message) : no_bare_exception (set_messages ms).
Proof. intros st msg. discriminate. Qed.

Lemma nobare_append_message (m : message) : no_bare_exception (append_message m).
Proof. intros st msg. discriminate. Qed.

Lemma nobare_external (oracle : list Event -> ext A) (ev : Event) :
  no_bare_exception (external oracle ev).
Proof. intros st msg. unfold external. destruct (oracle (st_log st)); discriminate. Qed.

Lemma nobare_bind (m : M A) (k : A -> M B) :
  no_bare_exception m -> (forall a, no_bare_exception (k a)) -> no_bare_exception (bind m k).
Proof.
  intros Hm Hk st msg. unfold bind. specialize (Hm st msg).
  destruct (m st) as [[a|e] st']; simpl in *.
  - apply Hk.
  - intros H. apply Hm. injection H as ->. reflexivity.
Qed.

Lemma nobare_try_except (c : exn -> bool) (m : M A) (h : exn -> M A) :
  no_bare_exception m -> (forall e, no_bare_exception (h e)) ->
  no_bare_exception (try_except c m h).
Proof.
  intros Hm Hh st msg. unfold try_except. specialize (Hm st msg).
  destruct (m st) as [[a|e] st']; simpl in *.
  - discriminate.
  - destruct (c e); [apply Hh | exact Hm].
Qed.

End Preservation.

Lemma nobare_getitem_str (v : pyval) (key : string) :
  no_bare_exception (lift (getitem_str v key)).
Proof.
  intros st msg. unfold lift, getitem_str. simpl.
  destruct v; try discriminate. destruct (d !! key); discriminate.
Qed.

Lemma nobare_getitem_int (v : pyval) (i : Z) :
  no_bare_exception (lift (getitem_int v i)).
Proof.
  intros st msg. unfold lift, getitem_int. simpl.
  destruct v; try discriminate.
  - destruct (seq_index _ i); discriminate.
  - destruct (seq_index l i); discriminate.
Qed.

Create HintDb nobare.
#[local] Hint Resolve nobare_ret nobare_emit nobare_get_messages nobare_set_messages
  nobare_append_message nobare_external nobare_getitem_str nobare_getitem_int : nobare.

(** Closes [no_bare_exception] goals by following the structure of the
    computation. *)
Ltac nobare :=
  repeat first
    [ progress cbv zeta
    | solve [ auto with nobare ]
    | apply nobare_bind; [ | intros ? ]
    | apply nobare_try_except; [ | intros ? ]
    | apply nobare_raise; intros ?; discriminate
    | match goal with
      | |- no_bare_exception (if ?c then _ else _) => destruct c
      | |- no_bare_exception (match ?x with _ => _ end) => destruct x
      end ].

(** ** The provider's constructor (C9) *)

Section ProviderConstruction.

Variable w : World.
Variables base project slug : string.
Variable id : Z.

(** C9. Whatever the environment, [StashAPI.__init__] either fails with the
    [KeyError] of the lookup [os.environ["STASH_HTTP_ACCESS_TOKEN"]] (the
    variable is absent) or stores the string found there: the stored token
    is never [None], the branch raising [ValueError] is never taken, and
    nothing has been sent over HTTP by then (the state is untouched). *)
Theorem C9_init_token_lookup (st : State) :
  match environ w !! "STASH_HTTP_ACCESS_TOKEN" with
  | None =>
      StashAPI.__init__ w base project slug id st
      = (Raise (KeyError (PStr "STASH_HTTP_ACCESS_TOKEN")), st)
  | Some tok =>
      exists api,
        StashAPI.__init__ w base project slug id st = (Ok api, st)
        /\ StashAPI.stash_token api = PStr tok
        /\ StashAPI.stash_token api <> PNone
  end
  /\ (forall msg st', StashAPI.__init__ w base project slug id st <> (Raise (ValueError msg), st'))
  /\ snd (StashAPI.__init__ w base project slug id st) = st.
Proof.
  unfold StashAPI.__init__, StashAPI.os_environ_getitem, bind, ret, raise.
  destruct (environ w !! "STASH_HTTP_ACCESS_TOKEN") as [tok|]; simpl.
  - split; [ | split ].
    + eexists. repeat split. discriminate.
    + intros msg st'. discriminate.
    + reflexivity.
  - split; [ | split ].
    + reflexivity.
    + intros msg st'. discriminate.
    + reflexivity.
Qed.

End ProviderConstruction.

(** ** Backend dispatch (C2, C8) *)

Lemma seq_index_0 {A : Type} (l : list A) : seq_index l 0 = head l.
Proof. destruct l; reflexivity. Qed.

Lemma OPENAI_GPT_TYPES_spec (s : string) :
  s ∈ OPENAI_GPT_TYPES <->
  s = "gpt-3.5-turbo" \/ s = "gpt-3.5-turbo-16k" \/ s = "gpt-3.5-turbo-0301" \/ s = "gpt-4".
Proof.
  unfold OPENAI_GPT_TYPES.
  rewrite !elem_of_union, !elem_of_singleton. tauto.
Qed.

Section Dispatch.

Variable w : World.
Variable gpt_type : string.
Variable messages : list message.
Variable llm_url : option string.
Variable st : State.

(** The request a self-hosted backend receives. *)
Let post_url : string := py_format w (of_optional llm_url) +:+ "/v1/chat/completions".
Let post_headers : list (string * string) := [("Content-Type", "application/json")].
Let post_data : PostData :=
  {| pd_model := gpt_type; pd_messages := messages; pd_temperature := "0.7" |}.

Lemma generate_hosted_no_key :
  gpt_type ∈ OPENAI_GPT_TYPES ->
  environ w !! "OPENAI_API_KEY" = None ->
  generate_llm_response w gpt_type messages llm_url st
  = (Raise (ValueError "OPENAI_API_KEY is not set"), st).
Proof.
  intros Hin Hkey. unfold generate_llm_response.
  rewrite (bool_decide_eq_true_2 _ Hin), Hkey. reflexivity.
Qed.

Lemma generate_hosted_run (k : string) :
  gpt_type ∈ OPENAI_GPT_TYPES ->
  environ w !! "OPENAI_API_KEY" = Some k ->
  generate_llm_response w gpt_type messages llm_url st
  = ( match chat_completions_create w (st_log st) (Some k) gpt_type messages with
      | Failed info => Raise (ExternalError info)
      | Returned cc =>
          match choices cc with
          | [] => Raise IndexError
          | c :: _ => Ok (c, usage cc)
          end
      end,
      {| st_log := st_log st ++ [EOpenAICreate (Some k) gpt_type messages];
         st_messages := st_messages st |} ).
Proof.
  intros Hin Hkey. unfold generate_llm_response.
  rewrite (bool_decide_eq_true_2 _ Hin), Hkey.
  unfold bind, external, lift, ret.
  destruct (chat_completions_create w (st_log st) (Some k) gpt_type messages) as [cc|info];
    [ | reflexivity ].
  rewrite seq_index_0. destruct (choices cc); reflexivity.
Qed.

Lemma generate_self_hosted_run :
  gpt_type ∉ OPENAI_GPT_TYPES ->
  let run := generate_llm_response w gpt_type messages llm_url st in
  snd run = {| st_log := st_log st ++ [EHttpPost post_url post_headers post_data];
               st_messages := st_messages st |}
  /\ (forall resp u, fst run = Ok (resp, u) -> u = None)
  /\ (forall info,
        requests_post_json w (st_log st) post_url post_headers post_data = Failed info ->
        fst run = Raise (ExternalError info))
  /\ (forall j cs c0 m c,
        requests_post_json w (st_log st) post_url post_headers post_data = Returned j ->
        getitem_str j "choices" = Ok cs -> getitem_int cs 0 = Ok c0 ->
        getitem_str c0 "message" = Ok m -> getitem_str m "content" = Ok c ->
        fst run = Ok (c, None)).
Proof.
  intros Hout run. subst run. unfold generate_llm_response.
  rewrite (bool_decide_eq_false_2 _ Hout).
  fold post_url post_headers post_data.
  unfold bind, external, lift, ret.
  repeat split.
  - destruct (requests_post_json w (st_log st) post_url post_headers post_data) as [j|info];
      [ | reflexivity ].
    destruct (getitem_str j "choices") as [cs|e1]; [ | reflexivity ]. simpl.
    destruct (getitem_int cs 0) as [c0|e2]; [ | reflexivity ]. simpl.
    destruct (getitem_str c0 "message") as [m|e3]; [ | reflexivity ]. simpl.
    destruct (getitem_str m "content") as [c|e4]; reflexivity.
  - intros resp u.
    destruct (requests_post_json w (st_log st) post_url post_headers post_data) as [j|info];
      [ | discriminate ].
    destruct (getitem_str j "choices") as [cs|e1]; [ | discriminate ]. simpl.
    destruct (getitem_int cs 0) as [c0|e2]; [ | discriminate ]. simpl.
    destruct (getitem_str c0 "message") as [m|e3]; [ | discriminate ]. simpl.
    destruct (getitem_str m "content") as [c|e4]; [ | discriminate ]. simpl.
    intros [= _ <-]. reflexivity.
  - intros info H. rewrite H. reflexivity.
  - intros j cs c0 m c H1 H2 H3 H4 H5.
    rewrite H1, H2. simpl. rewrite H3. simpl. rewrite H4. simpl. rewrite H5. reflexivity.
Qed.

(** C2. The backend is chosen by exact membership of the model identifier
    in the four-element set [OPENAI_GPT_TYPES].  A member goes to the hosted
    client: nothing but a chat-completion request for that model and those
    messages is issued, and a returned result carries the first choice and
    the [usage] the hosted backend reported.  Every other identifier, such
    as [llama-local] or a prefix, extension or case variant of a hosted
    name, goes to the self-hosted endpoint: exactly one POST is issued and
    a returned result carries no usage metrics. *)
Theorem C2_backend_dispatch :
  let run := generate_llm_response w gpt_type messages llm_url st in
  (gpt_type ∈ OPENAI_GPT_TYPES <->
     gpt_type = "gpt-3.5-turbo" \/ gpt_type = "gpt-3.5-turbo-16k"
     \/ gpt_type = "gpt-3.5-turbo-0301" \/ gpt_type = "gpt-4")
  /\ (gpt_type ∈ OPENAI_GPT_TYPES ->
        (snd run = st
         \/ snd run = {| st_log := st_log st
                           ++ [EOpenAICreate (environ w !! "OPENAI_API_KEY") gpt_type messages];
                         st_messages := st_messages st |})
        /\ (forall resp u, fst run = Ok (resp, u) ->
              exists cc,
                chat_completions_create w (st_log st) (environ w !! "OPENAI_API_KEY")
                  gpt_type messages = Returned cc
                /\ head (choices cc) = Some resp /\ u = usage cc)
        /\ (forall k cc resp,
              environ w !! "OPENAI_API_KEY" = Some k ->
              chat_completions_create w (st_log st) (Some k) gpt_type messages = Returned cc ->
              head (choices cc) = Some resp ->
              fst run = Ok (resp, usage cc)))
  /\ (gpt_type ∉ OPENAI_GPT_TYPES ->
        snd run = {| st_log := st_log st ++ [EHttpPost post_url post_headers post_data];
                     st_messages := st_messages st |}
        /\ (forall resp u, fst run = Ok (resp, u) -> u = None))
  /\ ("llama-local" ∉ OPENAI_GPT_TYPES)
  /\ ("gpt" ∉ OPENAI_GPT_TYPES)
  /\ ("gpt-4-32k" ∉ OPENAI_GPT_TYPES)
  /\ ("GPT-4" ∉ OPENAI_GPT_TYPES)
  /\ ("Gpt-3.5-Turbo" ∉ OPENAI_GPT_TYPES).
Proof.
  intros run. subst run.
  split; [ apply OPENAI_GPT_TYPES_spec | ].
  split.
  { intros Hin. destruct (environ w !! "OPENAI_API_KEY") as [k|] eqn:Hkey.
    - rewrite (generate_hosted_run k Hin Hkey). simpl.
      split; [ right; reflexivity | ]. split.
      + intros resp u H.
        destruct (chat_completions_create w (st_log st) (Some k) gpt_type messages)
          as [cc|info]; [ | discriminate ].
        exists cc. destruct (choices cc) as [|c cs]; [ discriminate | ].
        injection H as <- <-. repeat split.
      + intros k' cc resp [= <-] Hcc Hhd. rewrite Hcc.
        destruct (choices cc) as [|c cs]; [ discriminate | ].
        injection Hhd as <-. reflexivity.
    - rewrite (generate_hosted_no_key Hin Hkey). simpl.
      split; [ left; reflexivity | ]. split.
      + intros resp u H. discriminate.
      + intros k' cc resp H. discriminate. }
  split.
  { intros Hout. destruct (generate_self_hosted_run Hout) as (Hlog & Hu & _).
    split; assumption. }
  rewrite !OPENAI_GPT_TYPES_spec.
  repeat split; intros [H|[H|[H|H]]]; discriminate.
Qed.

End Dispatch.

(** C8 as amended. The empty conversation is not rejected: no emptiness
    check precedes the call of the backend client.  For a hosted model with
    the API key set, the client's chat completion is called with the empty
    message list; for a self-hosted model, the HTTP POST is called with a
    body whose message list is empty.  The outcome is whatever that call
    gives: its failure comes out as it is (the refusal of an address
    without a scheme, for instance), a well-formed answer is returned as
    the reply.  The only failure that precedes the call is the missing API
    key of the hosted variant. *)
Theorem C8_empty_conversation_is_sent (w : World) (gpt_type : string) (st : State)
    (url : option string) :
  let run := generate_llm_response w gpt_type [] url st in
  let post_url := py_format w (of_optional url) +:+ "/v1/chat/completions" in
  let post_headers := [("Content-Type", "application/json")] in
  let body := {| pd_model := gpt_type; pd_messages := []; pd_temperature := "0.7" |} in
  (gpt_type ∈ OPENAI_GPT_TYPES -> environ w !! "OPENAI_API_KEY" = None ->
     run = (Raise (ValueError "OPENAI_API_KEY is not set"), st))
  /\ (gpt_type ∈ OPENAI_GPT_TYPES ->
      forall k, environ w !! "OPENAI_API_KEY" = Some k ->
        st_log (snd run) = (st_log st ++ [EOpenAICreate (Some k) gpt_type []])%list
        /\ (forall i,
              chat_completions_create w (st_log st) (Some k) gpt_type [] = Failed i ->
              fst run = Raise (ExternalError i))
        /\ (forall cc c cs,
              chat_completions_create w (st_log st) (Some k) gpt_type [] = Returned cc ->
              choices cc = c :: cs -> fst run = Ok (c, usage cc)))
  /\ (gpt_type ∉ OPENAI_GPT_TYPES ->
        st_log (snd run) = (st_log st ++ [EHttpPost post_url post_headers body])%list
        /\ (forall i,
              requests_post_json w (st_log st) post_url post_headers body = Failed i ->
              fst run = Raise (ExternalError i))
        /\ (forall j cs c0 m c,
              requests_post_json w (st_log st) post_url post_headers body = Returned j ->
              getitem_str j "choices" = Ok cs -> getitem_int cs 0 = Ok c0 ->
              getitem_str c0 "message" = Ok m -> getitem_str m "content" = Ok c ->
              fst run = Ok (c, None))).
Proof.
  intros run post_url post_headers body. subst run.
  split; [ | split ].
  - intros Hin Hkey. exact (generate_hosted_no_key w gpt_type [] url st Hin Hkey).
  - intros Hin k Hkey. rewrite (generate_hosted_run w gpt_type [] url st k Hin Hkey).
    simpl. split; [ reflexivity | ]. split.
    + intros i H. rewrite H. reflexivity.
    + intros cc c cs H Hc. rewrite H, Hc. reflexivity.
  - intros Hout.
    pose proof (generate_self_hosted_run w gpt_type [] url st Hout) as H.
    cbv zeta in H. destruct H as (Hs & _ & Hf & Hok).
    split; [ rewrite Hs; reflexivity | ]. split; [ exact Hf | exact Hok ].
Qed.

Lemma generate_keeps_messages (w : World) (gpt_type : string) (ms : list message)
    (url : option string) :
  keeps_messages (generate_llm_response w gpt_type ms url).
Proof.
  unfold generate_llm_response.
  destruct (bool_decide (gpt_type ∈ OPENAI_GPT_TYPES)).
  - destruct (environ w !! "OPENAI_API_KEY"); [ | apply keeps_raise ].
    apply keeps_bind; [ apply keeps_external | intros cc ].
    apply keeps_bind; [ apply keeps_lift | intros c ]. apply keeps_ret.
  - apply keeps_bind; [ apply keeps_external | intros j ].
    apply keeps_bind; [ apply keeps_lift | intros cs ].
    apply keeps_bind; [ apply keeps_lift | intros c0 ].
    apply keeps_bind; [ apply keeps_lift | intros m ].
    apply keeps_bind; [ apply keeps_lift | intros c ]. apply keeps_ret.
Qed.

(** ** The seeded conversation and the first reply (C1) *)

Section PromptBuilding.

Variable w : World.
Variables pr_title pr_description : pyval.
Variable diff_output : string.

Let seed : list message := seed_messages w pr_title pr_description diff_output.

(** The state in which [analyze_pr_with_GPT] calls the backend. *)
Let seeded (print_prompt : bool) (st : State) : State :=
  {| st_log :=
       if print_prompt
       then st_log st
              ++ [EPrint (String.concat LF
                            [prompt; pr_description_message w pr_title pr_description;
                             diff_message diff_output; final_message])]
       else st_log st;
     st_messages := seed |}.

Lemma analyze_pr_with_GPT_run (gpt_type : string) (print_prompt : bool)
    (llm_url : option string) (st : State) :
  analyze_pr_with_GPT w pr_title pr_description diff_output gpt_type print_prompt llm_url st
  = match generate_llm_response w gpt_type seed llm_url (seeded print_prompt st) with
    | (Ok r, st2) =>
        (Ok (fst r, snd r, seed ++ [Message "assistant" (fst r)]),
         {| st_log := st_log st2; st_messages := seed ++ [Message "assistant" (fst r)] |})
    | (Raise e, st2) => (Raise e, st2)
    end.
Proof.
  unfold analyze_pr_with_GPT, call_generate_llm_response.
  unfold bind at 1. unfold set_messages at 1.
  unfold bind at 1.
  assert (Hpre :
    (if print_prompt
     then emit (EPrint (String.concat LF
                          [prompt; pr_description_message w pr_title pr_description;
                           diff_message diff_output; final_message]))
     else ret tt)
      {| st_log := st_log st; st_messages := seed |}
    = (Ok tt, seeded print_prompt st)).
  { unfold seeded. destruct print_prompt; reflexivity. }
  fold seed. rewrite Hpre.
  unfold bind, get_messages, append_message, ret.
  change (st_messages (seeded print_prompt st)) with seed.
  pose proof (generate_keeps_messages w gpt_type seed llm_url (seeded print_prompt st)) as Hk.
  destruct (generate_llm_response w gpt_type seed llm_url (seeded print_prompt st))
    as [[r|e] st2]; simpl in *.
  - rewrite Hk. reflexivity.
  - reflexivity.
Qed.

(** C1. The prompt builder yields exactly four seed messages, in the order
    system instruction, description, diff, final instruction, with roles
    system, user, user, user.  When the first backend call answers,
    [analyze_pr_with_GPT] returns, and the conversation it returns (which is
    also the stored one) is the four seeds followed by exactly one
    assistant message holding the reply: five messages with roles system,
    user, user, user, assistant. *)
Theorem C1_seed_then_assistant :
  map role seed = ["system"; "user"; "user"; "user"]
  /\ map content seed
     = [PStr prompt; PStr (pr_description_message w pr_title pr_description);
        PStr (diff_message diff_output); PStr final_message]
  /\ length seed = 4%nat
  /\ (forall gpt_type print_prompt llm_url st resp u st2,
        generate_llm_response w gpt_type seed llm_url (seeded print_prompt st)
        = (Ok (resp, u), st2) ->
        exists st',
          analyze_pr_with_GPT w pr_title pr_description diff_output gpt_type
            print_prompt llm_url st
          = (Ok (resp, u, seed ++ [Message "assistant" resp]), st'))
  /\ (forall gpt_type print_prompt llm_url st resp u msgs st',
        analyze_pr_with_GPT w pr_title pr_description diff_output gpt_type
          print_prompt llm_url st
        = (Ok (resp, u, msgs), st') ->
        msgs = seed ++ [Message "assistant" resp]
        /\ st_messages st' = msgs
        /\ map role msgs = ["system"; "user"; "user"; "user"; "assistant"]
        /\ length msgs = 5%nat).
Proof.
  split; [ reflexivity | ]. split; [ reflexivity | ]. split; [ reflexivity | ].
  split.
  - intros gpt_type print_prompt llm_url st resp u st2 H.
    rewrite analyze_pr_with_GPT_run, H. eexists. reflexivity.
  - intros gpt_type print_prompt llm_url st resp u msgs st'.
    rewrite analyze_pr_with_GPT_run.
    destruct (generate_llm_response w gpt_type seed llm_url (seeded print_prompt st))
      as [[r|e] st2]; [ | discriminate ].
    intros [= <- <- <- <-]. repeat split.
Qed.

End PromptBuilding.

(** ** The interactive turn (C3) *)

Section Interactive.

Variable w : World.
Variable args : Args.

Lemma chat_turn_run (user_input : string) (st : State) :
  chat_turn w args user_input st
  = (Raise (TypeError (MissingPositional "generate_llm_response" "llm_url")),
     {| st_log := st_log st ++ [EPrint LF];
        st_messages := st_messages st ++ [Message "user" (PStr user_input)] |}).
Proof. reflexivity. Qed.

(** C3 on the code. A turn with an input other than the exit word appends
    the user message and then stops with a [TypeError]: the call
    [generate_llm_response(args.llm_type, messages)] leaves out the required
    parameter [llm_url].  No request reaches a backend, no assistant message
    is appended, nothing is returned, and the loop does not go on to the
    remaining inputs.  The messages stored before the turn are still there,
    unchanged, in front of the new user message. *)
Theorem C3_turn_stops_with_TypeError (user_input : string) (rest : list string) (st : State) :
  user_input <> "exit" ->
  interactive_chat w args (user_input :: rest) st
  = (Raise (TypeError (MissingPositional "generate_llm_response" "llm_url")),
     {| st_log := st_log st
                    ++ [EConsoleInput "[magenta][bold]You:[/bold][/magenta] " user_input;
                        EPrint LF];
        st_messages := st_messages st ++ [Message "user" (PStr user_input)] |}).
Proof.
  intros Hne. simpl. unfold bind at 1. unfold emit at 1.
  destruct (String.eqb_spec user_input "exit") as [Heq|_]; [ contradiction | ].
  unfold bind at 1. rewrite chat_turn_run. simpl.
  rewrite <- app_assoc. reflexivity.
Qed.

End Interactive.

(** ** Fetching the pull request (C6) *)

Lemma bind_inv_raise {A B : Type} (m : M A) (k : A -> M B) (st st'' : State) (e : exn) :
  bind m k st = (Raise e, st'') ->
  m st = (Raise e, st'')
  \/ exists a st', m st = (Ok a, st') /\ k a st' = (Raise e, st'').
Proof.
  unfold bind. destruct (m st) as [[a|e'] st'] eqn:E; intros H.
  - right. exists a, st'. split; [reflexivity | exact H].
  - left. injection H as <- <-. reflexivity.
Qed.

Lemma external_inv_raise {A : Type} (oracle : list Event -> ext A) (ev : Event)
    (st st' : State) (e : exn) :
  external oracle ev st = (Raise e, st') -> exists info, e = ExternalError info.
Proof.
  unfold external. destruct (oracle (st_log st)) as [a|info]; intros H.
  - discriminate H.
  - injection H as <- _. exists info. reflexivity.
Qed.

Lemma external_inv_ok {A : Type} (oracle : list Event -> ext A) (ev : Event)
    (st st' : State) (a : A) :
  external oracle ev st = (Ok a, st') ->
  oracle (st_log st) = Returned a
  /\ st' = {| st_log := st_log st ++ [ev]; st_messages := st_messages st |}.
Proof.
  unfold external. destruct (oracle (st_log st)) as [a'|info]; intros H.
  - injection H as <- <-. split; reflexivity.
  - discriminate H.
Qed.

Lemma lift_inv_raise {A : Type} (r : result A) (st st' : State) (e : exn) :
  lift r st = (Raise e, st') -> r = Raise e.
Proof. unfold lift. intros H. exact (f_equal fst H). Qed.

Lemma getitem_str_absent (d : gmap string pyval) (key : string) :
  d !! key = None -> getitem_str (PDict d) key = Raise (KeyError (PStr key)).
Proof. intros H. unfold getitem_str. rewrite H. reflexivity. Qed.

Lemma getitem_str_KeyError (v : pyval) (key : string) (k : pyval) :
  getitem_str v key = Raise (KeyError k) -> k = PStr key.
Proof.
  unfold getitem_str. destruct v; try discriminate.
  destruct (d !! key); [ discriminate | ]. intros [= <-]. reflexivity.
Qed.

Lemma getitem_int_KeyError (v : pyval) (i : Z) (k : pyval) :
  getitem_int v i = Raise (KeyError k) -> k = PInt i.
Proof.
  unfold getitem_int. destruct v; try discriminate.
  - destruct (seq_index _ i); discriminate.
  - destruct (seq_index l i); discriminate.
  - intros [= <-]. reflexivity.
Qed.

Section Fetch.

Variable w : World.
Variable api : StashAPI.t.
Variable st : State.

(** The backend's answer to the metadata request is a JSON object [info]
    without a [description] member. *)
Variable info : gmap string pyval.
Hypothesis info_response :
  requests_get_json w (st_log st) (StashAPI.url_info api) (StashAPI.headers api)
  = Returned (PDict info).
Hypothesis description_absent : info !! "description" = None.

Let st1 : State :=
  {| st_log := st_log st ++ [EHttpGet (StashAPI.url_info api) (StashAPI.headers api)];
     st_messages := st_messages st |}.

Lemma get_info_run :
  StashAPI._get_repo_info_from_stash w api st = (Ok (PDict info), st1).
Proof.
  unfold StashAPI._get_repo_info_from_stash, external.
  rewrite info_response. reflexivity.
Qed.

Lemma description_default (s : State) :
  try_except is_KeyError
    (lift (getitem_str (PDict info) "description"))
    (fun _ => ret (PStr EmptyString)) s
  = (Ok (PStr EmptyString), s).
Proof.
  unfold try_except, lift. rewrite (getitem_str_absent _ _ description_absent).
  reflexivity.
Qed.

(** C6. When the metadata response has no [description] member, the fetch
    does not fail on it: [get_data] never ends in the [KeyError] of that
    lookup, every result it returns has the description [""] (a string,
    not [None]), and it does return such a result whenever the members it
    requires ([title], [links.self[0].href], [fromHash], [toHash]) are
    there. *)
Theorem C6_missing_description_defaults_to_empty :
  (forall d st', StashAPI.get_data w api st = (Ok d, st') ->
     StashAPI.pr_description d = PStr EmptyString)
  /\ (forall st', StashAPI.get_data w api st <> (Raise (KeyError (PStr "description")), st'))
  /\ (forall diff to_hash from_hash title links self_links first href,
        requests_get_json w (st_log st1) (StashAPI.url_diff api) (StashAPI.headers api)
        = Returned diff ->
        getitem_str diff "toHash" = Ok to_hash ->
        getitem_str diff "fromHash" = Ok from_hash ->
        getitem_str (PDict info) "title" = Ok title ->
        getitem_str (PDict info) "links" = Ok links ->
        getitem_str links "self" = Ok self_links ->
        getitem_int self_links 0 = Ok first ->
        getitem_str first "href" = Ok href ->
        StashAPI.get_data w api st
        = (Ok {| StashAPI.to_commit := to_hash;
                 StashAPI.from_commit := from_hash;
                 StashAPI.pr_title := title;
                 StashAPI.pr_description := PStr EmptyString;
                 StashAPI.pr_link := href |},
           {| st_log := st_log st1
                          ++ [EHttpGet (StashAPI.url_diff api) (StashAPI.headers api)];
              st_messages := st_messages st |})).
Proof.
  split; [ | split ].
  - intros d st' H. unfold StashAPI.get_data in H.
    rewrite (bind_ok _ _ _ _ _ get_info_run) in H.
    apply bind_inv_ok in H as (diff & s2 & _ & H).
    apply bind_inv_ok in H as (to_hash & s3 & _ & H).
    apply bind_inv_ok in H as (from_hash & s4 & _ & H).
    apply bind_inv_ok in H as (title & s5 & _ & H).
    rewrite (bind_ok _ _ _ _ _ (description_default s5)) in H.
    apply bind_inv_ok in H as (links & s6 & _ & H).
    apply bind_inv_ok in H as (self_links & s7 & _ & H).
    apply bind_inv_ok in H as (first & s8 & _ & H).
    apply bind_inv_ok in H as (href & s9 & _ & H).
    injection H as <- _. reflexivity.
  - intros st' H. unfold StashAPI.get_data in H.
    rewrite (bind_ok _ _ _ _ _ get_info_run) in H.
    apply bind_inv_raise in H as [H | (diff & s2 & _ & H)].
    { unfold StashAPI._get_repo_diff_data_from_stash in H.
      apply external_inv_raise in H as (i & Hi). discriminate Hi. }
    apply bind_inv_raise in H as [H | (to_hash & s3 & _ & H)].
    { apply lift_inv_raise, getitem_str_KeyError in H. discriminate H. }
    apply bind_inv_raise in H as [H | (from_hash & s4 & _ & H)].
    { apply lift_inv_raise, getitem_str_KeyError in H. discriminate H. }
    apply bind_inv_raise in H as [H | (title & s5 & _ & H)].
    { apply lift_inv_raise, getitem_str_KeyError in H. discriminate H. }
    rewrite (bind_ok _ _ _ _ _ (description_default s5)) in H.
    apply bind_inv_raise in H as [H | (links & s6 & _ & H)].
    { apply lift_inv_raise, getitem_str_KeyError in H. discriminate H. }
    apply bind_inv_raise in H as [H | (self_links & s7 & _ & H)].
    { apply lift_inv_raise, getitem_str_KeyError in H. discriminate H. }
    apply bind_inv_raise in H as [H | (first & s8 & _ & H)].
    { apply lift_inv_raise, getitem_int_KeyError in H. discriminate H. }
    apply bind_inv_raise in H as [H | (href & s9 & _ & H)].
    { apply lift_inv_raise, getitem_str_KeyError in H. discriminate H. }
    discriminate H.
  - intros diff to_hash from_hash title links self_links first href
      Hdiff Hto Hfrom Htitle Hlinks Hself Hfirst Hhref.
    unfold StashAPI.get_data.
    rewrite (bind_ok _ _ _ _ _ get_info_run).
    assert (Hd : StashAPI._get_repo_diff_data_from_stash w api st1
                 = (Ok diff,
                    {| st_log := st_log st1
                         ++ [EHttpGet (StashAPI.url_diff api) (StashAPI.headers api)];
                       st_messages := st_messages st |})).
    { unfold StashAPI._get_repo_diff_data_from_stash, external.
      rewrite Hdiff. reflexivity. }
    rewrite (bind_ok _ _ _ _ _ Hd).
    rewrite Hto, Hfrom, Htitle, Hlinks.
    unfold bind at 1. unfold lift at 1.
    unfold bind at 1. unfold lift at 1.
    unfold bind at 1. unfold lift at 1.
    rewrite (bind_ok _ _ _ _ _ (description_default _)).
    unfold bind at 1. unfold lift at 1.
    rewrite Hself. unfold bind at 1. unfold lift at 1.
    rewrite Hfirst. unfold bind at 1. unfold lift at 1.
    rewrite Hhref. unfold bind at 1. unfold lift at 1.
    reflexivity.
Qed.

End Fetch.

(** ** The two diff commands (C4, C5, C7, C10) *)

Lemma string_length_append (s1 s2 : string) :
  String.length (s1 +:+ s2) = (String.length s1 + String.length s2)%nat.
Proof. induction s1 as [|c s1 IH]; simpl; [ reflexivity | now rewrite IH ]. Qed.

Lemma combine_diff_length (a b : string) :
  String.length (combine_diff a b) = (String.length a + 2 + String.length b)%nat.
Proof.
  unfold combine_diff. rewrite !string_length_append. reflexivity.
Qed.

Section DiffStage.

Variable w : World.
Variable args : Args.
Variable d : StashAPI.data.
Variable st : State.

Let cmd1 : list pyval := name_status_cmd (StashAPI.from_commit d) (StashAPI.to_commit d).
Let cmd2 : list pyval := unified_diff_cmd args (StashAPI.from_commit d) (StashAPI.to_commit d).

(** The states after the first and after the second [git diff] call. *)
Let s1 : State :=
  {| st_log := st_log st ++ [ESubprocess cmd1]; st_messages := st_messages st |}.
Let s2 : State :=
  {| st_log := st_log s1 ++ [ESubprocess cmd2]; st_messages := st_messages st |}.

(** The state after the test for an empty unified diff. *)
Let s3 (diff_modified_output : string) : State :=
  if (String.length diff_modified_output =? 0)%nat
  then {| st_log := st_log s2 ++ [EPrint no_modifications_notice];
          st_messages := st_messages st |}
  else s2.

Lemma compute_diff_run :
  compute_diff w args d st
  = match subprocess_check_output w (st_log st) cmd1 with
    | Failed i => (Raise (ExternalError i), s1)
    | Returned ns =>
        match subprocess_check_output w (st_log s1) cmd2 with
        | Failed i => (Raise (ExternalError i), s2)
        | Returned dm =>
            if show_diff_only args
            then (match console_render w
                          (st_log (s3 dm)
                             ++ [EConsolePrint
                                   ("[bold]Showing only the git diff output:[/bold]" +:+ LF)])
                          (EConsolePrint (combine_diff ns dm)) with
                  | Returned _ => Raise (SystemExit 0)
                  | Failed i => Raise (ExternalError i)
                  end,
                  {| st_log :=
                       (st_log (s3 dm)
                          ++ [EConsolePrint
                                ("[bold]Showing only the git diff output:[/bold]" +:+ LF)])
                         ++ [EConsolePrint (combine_diff ns dm)];
                     st_messages := st_messages st |})
            else (Ok (combine_diff ns dm), s3 dm)
        end
    end.
Proof.
  unfold compute_diff. fold cmd1 cmd2.
  unfold bind at 1. unfold external at 1.
  destruct (subprocess_check_output w (st_log st) cmd1) as [ns|i]; [ | reflexivity ].
  fold s1. unfold bind at 1. unfold external at 1.
  destruct (subprocess_check_output w (st_log s1) cmd2) as [dm|i]; [ | reflexivity ].
  change {| st_log := st_log s1 ++ [ESubprocess cmd2]; st_messages := st_messages s1 |}
    with s2.
  unfold bind at 1.
  assert (Hn : (if (String.length dm =? 0)%nat
                then emit (EPrint no_modifications_notice) else ret tt) s2
               = (Ok tt, s3 dm)).
  { unfold s3. destruct (String.length dm =? 0)%nat; reflexivity. }
  rewrite Hn.
  assert (Hm : st_messages (s3 dm) = st_messages st).
  { unfold s3. destruct (String.length dm =? 0)%nat; reflexivity. }
  destruct (show_diff_only args).
  - unfold bind, emit, console_call, external, exit, raise. simpl.
    destruct (console_render w _ _) as [[]|i]; rewrite Hm; reflexivity.
  - unfold bind at 1. unfold ret at 1. unfold bind at 1.
    assert (Hl : (String.length (combine_diff ns dm) =? 0)%nat = false).
    { apply Nat.eqb_neq. rewrite combine_diff_length. lia. }
    rewrite Hl. reflexivity.
Qed.

(** C7. The name-status command is [git diff --name-status from to]: it
    carries no change-kind filter.  The unified-diff command carries
    [--diff-filter=M] and, with the exhaustive-analysis flag,
    [--diff-filter=MA]: the flag adds the kind A to the kind M and removes
    nothing.  These are the commands a run issues, in this order. *)
Theorem C7_filter_kinds :
  cmd1 = [PStr "git"; PStr "diff"; PStr "--name-status";
          StashAPI.from_commit d; StashAPI.to_commit d]
  /\ (exists exclusions,
        cmd2 = [PStr "git"; PStr "diff"; PStr ("--diff-filter=" +:+ _diff_filter args);
                PStr ("-U" +:+ str_of_int (nb_context_lines args));
                StashAPI.from_commit d; StashAPI.to_commit d] ++ exclusions)
  /\ (exhaustive_analysis args = false -> _diff_filter args = "M")
  /\ (exhaustive_analysis args = true -> _diff_filter args = "MA")
  /\ (forall args1 args2,
        exhaustive_analysis args1 = false -> exhaustive_analysis args2 = true ->
        incl (list_ascii_of_string (_diff_filter args1))
             (list_ascii_of_string (_diff_filter args2)))
  /\ (exists events,
        st_log (snd (compute_diff w args d st)) = st_log st ++ ESubprocess cmd1 :: events
        /\ (forall ns, subprocess_check_output w (st_log st) cmd1 = Returned ns ->
              exists events', events = ESubprocess cmd2 :: events')).
Proof.
  split; [ reflexivity | ]. split.
  { unfold cmd2, unified_diff_cmd.
    destruct (0 <? length (exclude_file_types args))%nat.
    - eexists. rewrite <- app_assoc. reflexivity.
    - exists []. rewrite app_nil_r. reflexivity. }
  split; [ intros H; unfold _diff_filter; rewrite H; reflexivity | ].
  split; [ intros H; unfold _diff_filter; rewrite H; reflexivity | ].
  split.
  { intros a1 a2 H1 H2. unfold _diff_filter. rewrite H1, H2. simpl.
    intros c [<-|[]]. left. reflexivity. }
  rewrite compute_diff_run.
  destruct (subprocess_check_output w (st_log st) cmd1) as [ns|i].
  - destruct (subprocess_check_output w (st_log s1) cmd2) as [dm|i].
    + destruct (show_diff_only args); simpl; unfold s3;
        destruct (String.length dm =? 0)%nat; simpl;
        rewrite <- ?app_assoc; simpl;
        eexists; (split; [ reflexivity | ]); intros ns' _; eexists; reflexivity.
    + simpl. rewrite <- app_assoc. simpl.
      eexists; (split; [ reflexivity | ]); intros ns' _; eexists; reflexivity.
  - simpl. exists []. split; [ reflexivity | ]. intros ns' H. discriminate H.
Qed.

(** C4 as amended. With the file type [md] among the excluded ones, the
    unified-diff command ends with the marker [--], the pathspec [.] and one
    pathspec [:(exclude)*t] per excluded type [t], so it contains
    [:(exclude)*md], the type appended as it is given to the glob star, with
    no dot put in.  The exclusion is an argument of the diff tool; the
    name-status command has no such argument, whatever is excluded. *)
Theorem C4_exclusion_pathspecs :
  In "md" (exclude_file_types args) ->
  cmd2 = [PStr "git"; PStr "diff"; PStr ("--diff-filter=" +:+ _diff_filter args);
          PStr ("-U" +:+ str_of_int (nb_context_lines args));
          StashAPI.from_commit d; StashAPI.to_commit d]
         ++ [PStr "--"; PStr "."]
         ++ map (fun t => PStr (":(exclude)*" +:+ t)) (exclude_file_types args)
  /\ In (PStr ":(exclude)*md")
        (map (fun t => PStr (":(exclude)*" +:+ t)) (exclude_file_types args))
  /\ cmd1 = [PStr "git"; PStr "diff"; PStr "--name-status";
             StashAPI.from_commit d; StashAPI.to_commit d].
Proof.
  intros Hin. split; [ | split ].
  - unfold cmd2, unified_diff_cmd.
    destruct (exclude_file_types args) as [|t ts]; [ destruct Hin | ].
    simpl. reflexivity.
  - apply (in_map (fun t => PStr (":(exclude)*" +:+ t))) in Hin. exact Hin.
  - reflexivity.
Qed.

End DiffStage.

(** ** The guard on the combined diff (C10) *)

Lemma nobare_lift {A : Type} (r : result A) :
  (forall msg, r <> Raise (Exception_ msg)) -> no_bare_exception (lift r).
Proof. intros H st msg. exact (H msg). Qed.

Lemma nobare_generate (w : World) (gpt_type : string) (ms : list message)
    (url : option string) :
  no_bare_exception (generate_llm_response w gpt_type ms url).
Proof.
  unfold generate_llm_response. nobare.
  apply nobare_lift. intros msg.
  match goal with |- context [seq_index ?l 0] => destruct (seq_index l 0) end; discriminate.
Qed.

Lemma nobare_call_generate (w : World) (gpt_type : string) (ms : list message)
    (url : arg (option string)) :
  no_bare_exception (call_generate_llm_response w gpt_type ms url).
Proof.
  unfold call_generate_llm_response. destruct url.
  - apply nobare_generate.
  - apply nobare_raise. intros msg. discriminate.
Qed.

Lemma nobare_analyze (w : World) (t ds : pyval) (diff gpt_type : string) (pp : bool)
    (url : option string) :
  no_bare_exception (analyze_pr_with_GPT w t ds diff gpt_type pp url).
Proof.
  unfold analyze_pr_with_GPT.
  pose proof nobare_call_generate. nobare.
Qed.

Lemma nobare_interactive_chat (w : World) (args : Args) (inputs : list string) :
  no_bare_exception (interactive_chat w args inputs).
Proof.
  induction inputs as [|user_input rest IH]; simpl.
  - apply nobare_raise. intros msg. discriminate.
  - apply nobare_bind; [ apply nobare_emit | intros _ ].
    destruct (String.eqb user_input "exit").
    + apply nobare_raise. intros msg. discriminate.
    + apply nobare_bind; [ | intros _; exact IH ].
      intros st msg. rewrite chat_turn_run. discriminate.
Qed.

Lemma nobare_init (w : World) (base project slug : string) (id : Z) :
  no_bare_exception (StashAPI.__init__ w base project slug id).
Proof.
  unfold StashAPI.__init__, StashAPI.os_environ_getitem. nobare.
Qed.

Lemma nobare_get_data (w : World) (api : StashAPI.t) :
  no_bare_exception (StashAPI.get_data w api).
Proof.
  unfold StashAPI.get_data, StashAPI._get_repo_info_from_stash,
    StashAPI._get_repo_diff_data_from_stash.
  nobare.
Qed.

Lemma nobare_compute_diff (w : World) (args : Args) (d : StashAPI.data) :
  no_bare_exception (compute_diff w args d).
Proof.
  intros st msg. rewrite compute_diff_run.
  destruct (subprocess_check_output w (st_log st) _); [ | discriminate ].
  destruct (subprocess_check_output w _ _); [ | discriminate ].
  destruct (show_diff_only args); [ | discriminate ].
  simpl. destruct (console_render w _ _); discriminate.
Qed.

Lemma nobare_review (w : World) (args : Args) (d : StashAPI.data) (diff : string)
    (inputs : list string) :
  no_bare_exception (review w args d diff inputs).
Proof.
  unfold review, console_print_table, console_call.
  pose proof nobare_analyze. pose proof nobare_interactive_chat. nobare.
Qed.

Lemma nobare_main (w : World) (args : Args) (inputs : list string) :
  no_bare_exception (main w args inputs).
Proof.
  unfold main, make_api, fetch_data, console_print_table, console_call, exit.
  pose proof nobare_init. pose proof nobare_get_data.
  pose proof nobare_compute_diff. pose proof nobare_review.
  nobare.
Qed.

(** C10. The combined diff text is the name-status output, two line feeds
    and the unified diff, so it has at least two characters whatever the two
    outputs are (both may be empty).  The test for a combined text of length
    0 therefore never succeeds: neither the diff stage nor a whole run of
    [main] ever ends in the bare [Exception] that only this test raises. *)
Theorem C10_no_diff_output_guard_unreachable :
  (forall a b : string,
     combine_diff a b = (a +:+ (LF +:+ LF)) +:+ b
     /\ (2 <= String.length (combine_diff a b))%nat)
  /\ String.length (combine_diff EmptyString EmptyString) = 2%nat
  /\ (forall w args d st msg,
        fst (compute_diff w args d st) <> Raise (Exception_ msg))
  /\ (forall w args inputs st msg,
        fst (main w args inputs st) <> Raise (Exception_ msg)).
Proof.
  split; [ | split; [ | split ] ].
  - intros a b. split; [ reflexivity | ]. rewrite combine_diff_length. lia.
  - reflexivity.
  - intros w args d st msg. apply nobare_compute_diff.
  - intros w args inputs st msg. apply nobare_main.
Qed.

(** ** The statements at the example invocation *)

Lemma C1_seed_then_assistant_witness :
  exists st',
    analyze_pr_with_GPT Example.world (PStr "Fix parser") (PStr EmptyString)
      Example.diff_output "gpt-4" false None initial_state
    = (Ok (PStr "LGTM", Some Example.usage_metrics,
           seed_messages Example.world (PStr "Fix parser") (PStr EmptyString)
             Example.diff_output ++ [Message "assistant" (PStr "LGTM")]),
       st').
Proof.
  destruct (C1_seed_then_assistant Example.world (PStr "Fix parser") (PStr EmptyString)
              Example.diff_output) as (_ & _ & _ & Hret & _).
  apply (Hret "gpt-4" false None initial_state (PStr "LGTM") (Some Example.usage_metrics)
           {| st_log :=
                [EOpenAICreate (Some "sk-test") "gpt-4"
                   (seed_messages Example.world (PStr "Fix parser") (PStr EmptyString)
                      Example.diff_output)];
              st_messages :=
                seed_messages Example.world (PStr "Fix parser") (PStr EmptyString)
                  Example.diff_output |}).
  vm_compute. reflexivity.
Defined.

Lemma C2_backend_dispatch_witness :
  ("gpt-4" ∈ OPENAI_GPT_TYPES)
  /\ (exists cc,
        chat_completions_create Example.world [] (Some "sk-test") "gpt-4" [] = Returned cc
        /\ head (choices cc) = Some (PStr "LGTM")
        /\ Some Example.usage_metrics = usage cc)
  /\ ("llama-local" ∉ OPENAI_GPT_TYPES)
  /\ (forall resp u,
        fst (generate_llm_response Example.world "llama-local" [] None initial_state)
        = Ok (resp, u) -> u = None).
Proof.
  destruct (C2_backend_dispatch Example.world "gpt-4" [] None initial_state)
    as (Hset & Hin & _).
  destruct (C2_backend_dispatch Example.world "llama-local" [] None initial_state)
    as (_ & _ & Hout & Hllama & _).
  assert (Hgpt4 : "gpt-4" ∈ OPENAI_GPT_TYPES).
  { apply Hset. right. right. right. reflexivity. }
  split; [ exact Hgpt4 | ]. split.
  - destruct (Hin Hgpt4) as (_ & Hres & _).
    apply (Hres (PStr "LGTM") (Some Example.usage_metrics)). reflexivity.
  - split; [ exact Hllama | ]. exact (proj2 (Hout Hllama)).
Defined.

Lemma C3_turn_stops_with_TypeError_witness :
  interactive_chat Example.world Example.args ["hello"; "exit"] initial_state
  = (Raise (TypeError (MissingPositional "generate_llm_response" "llm_url")),
     {| st_log := [EConsoleInput "[magenta][bold]You:[/bold][/magenta] " "hello"; EPrint LF];
        st_messages := [Message "user" (PStr "hello")] |}).
Proof.
  apply (C3_turn_stops_with_TypeError Example.world Example.args "hello" ["exit"] initial_state).
  discriminate.
Defined.

Lemma C4_exclusion_pathspecs_witness :
  unified_diff_cmd Example.args (PStr "a1") (PStr "b2")
  = [PStr "git"; PStr "diff"; PStr "--diff-filter=M"; PStr "-U10"; PStr "a1"; PStr "b2";
     PStr "--"; PStr "."; PStr ":(exclude)*md"].
Proof.
  destruct (C4_exclusion_pathspecs Example.args Example.data) as (Hcmd & _).
  - simpl. left. reflexivity.
  - exact Hcmd.
Defined.

(** C4 as stated fails: with [md] excluded, the unified-diff command has no
    argument equal to [*.md]. *)
Lemma C4_counterexample :
  exclude_file_types Example.args = ["md"]
  /\ ~ In (PStr "*.md") (unified_diff_cmd Example.args (PStr "a1") (PStr "b2")).
Proof.
  split; [ reflexivity | ].
  vm_compute. intros H.
  repeat (destruct H as [H|H]; [ discriminate H | ]). exact H.
Qed.

Lemma C6_missing_description_defaults_to_empty_witness :
  exists st',
    StashAPI.get_data Example.world Example.api initial_state = (Ok Example.data, st')
    /\ StashAPI.pr_description Example.data = PStr EmptyString.
Proof.
  destruct (C6_missing_description_defaults_to_empty Example.world Example.api initial_state
              Example.info_fields)
    as (Hdesc & _ & Hret).
  - reflexivity.
  - reflexivity.
  - eexists. split.
    + eapply (Hret (PDict Example.diff_fields)); reflexivity.
    + reflexivity.
Defined.

Lemma C7_filter_kinds_witness :
  _diff_filter Example.args = "M"
  /\ incl (list_ascii_of_string (_diff_filter Example.args)) ["M"%char; "A"%char].
Proof.
  destruct (C7_filter_kinds Example.world Example.args Example.data initial_state)
    as (_ & _ & HM & _ & _).
  rewrite (HM eq_refl). split; [ reflexivity | ].
  intros c [<-|[]]. left. reflexivity.
Defined.

Lemma C8_empty_conversation_is_sent_witness :
  st_log (snd (generate_llm_response Example.world "gpt-4" [] None initial_state))
  = [EOpenAICreate (Some "sk-test") "gpt-4" []]
  /\ fst (generate_llm_response Example.world "gpt-4" [] None initial_state)
     = Ok (PStr "LGTM", Some Example.usage_metrics).
Proof.
  destruct (C8_empty_conversation_is_sent Example.world "gpt-4" initial_state None)
    as (_ & Hin & _).
  assert (Hgpt4 : "gpt-4" ∈ OPENAI_GPT_TYPES).
  { apply OPENAI_GPT_TYPES_spec. right. right. right. reflexivity. }
  destruct (Hin Hgpt4 "sk-test" eq_refl) as (Hlog & _ & Hres).
  split; [ exact Hlog | ].
  apply (Hres _ (PStr "LGTM") [] eq_refl eq_refl).
Defined.

(** C8 as stated fails: sending the empty conversation to the hosted model
    [gpt-4] of the example world raises nothing; the client is called with
    the empty message list and the backend's reply is returned. *)
Lemma C8_counterexample :
  generate_llm_response Example.world "gpt-4" [] None initial_state
  = (Ok (PStr "LGTM", Some Example.usage_metrics),
     {| st_log := [EOpenAICreate (Some "sk-test") "gpt-4" []]; st_messages := [] |})
  /\ ~ exists e,
         fst (generate_llm_response Example.world "gpt-4" [] None initial_state) = Raise e.
Proof.
  split.
  - vm_compute. reflexivity.
  - intros (e & H). vm_compute in H. discriminate H.
Qed.

(** * Further properties of the program *)

(** ** More reasoning about runs *)

Lemma bind_ext {A B : Type} (m : M A) (k1 k2 : A -> M B) (st : State) :
  (forall a st', k1 a st' = k2 a st') -> bind m k1 st = bind m k2 st.
Proof. intros H. unfold bind. destruct (m st) as [[a|e] st']; [ apply H | reflexivity ]. Qed.

Lemma lift_inv_ok {A : Type} (r : result A) (st st' : State) (a : A) :
  lift r st = (Ok a, st') -> r = Ok a /\ st' = st.
Proof. unfold lift. intros [= -> ->]. split; reflexivity. Qed.

Lemma string_append_assoc (a b c : string) : (a +:+ b) +:+ c = a +:+ (b +:+ c).
Proof.
  induction a as [|x a IH]; [ reflexivity | ].
  change (String x ((a +:+ b) +:+ c) = String x (a +:+ (b +:+ c))).
  f_equal. exact IH.
Qed.

Lemma string_length_0 (s : string) : (String.length s =? 0)%nat = true <-> s = EmptyString.
Proof. destruct s; simpl; split; intros H; try reflexivity; discriminate H. Qed.

Section Emission.

Context {A B : Type}.
Variable P : Event -> Prop.

Lemma emits_ret (a : A) : emits_only P (ret a).
Proof. intros st. exists []. simpl. rewrite app_nil_r. split; [ reflexivity | constructor ]. Qed.

Lemma emits_raise (e : exn) : emits_only P (@raise A e).
Proof. intros st. exists []. simpl. rewrite app_nil_r. split; [ reflexivity | constructor ]. Qed.

Lemma emits_lift (r : result A) : emits_only P (lift r).
Proof. intros st. exists []. simpl. rewrite app_nil_r. split; [ reflexivity | constructor ]. Qed.

Lemma emits_get_messages : emits_only P get_messages.
Proof. intros st. exists []. simpl. rewrite app_nil_r. split; [ reflexivity | constructor ]. Qed.

Lemma emits_set_messages (ms : list message) : emits_only P (set_messages ms).
Proof. intros st. exists []. simpl. rewrite app_nil_r. split; [ reflexivity | constructor ]. Qed.

Lemma emits_append_message (m : message) : emits_only P (append_message m).
Proof. intros st. exists []. simpl. rewrite app_nil_r. split; [ reflexivity | constructor ]. Qed.

Lemma emits_emit (ev : Event) : P ev -> emits_only P (emit ev).
Proof. intros H st. exists [ev]. split; [ reflexivity | repeat constructor; exact H ]. Qed.

Lemma emits_external (oracle : list Event -> ext A) (ev : Event) :
  P ev -> emits_only P (external oracle ev).
Proof.
  intros H st. exists [ev]. unfold external.
  destruct (oracle (st_log st)); (split; [ reflexivity | repeat constructor; exact H ]).
Qed.

Lemma emits_bind_post (Q : A -> Prop) (m : M A) (k : A -> M B) :
  (forall st a st', m st = (Ok a, st') -> Q a) ->
  emits_only P m -> (forall a, Q a -> emits_only P (k a)) -> emits_only P (bind m k).
Proof.
  intros HQ Hm Hk st. unfold bind.
  destruct (Hm st) as (evs1 & Hl1 & HP1). specialize (HQ st).
  destruct (m st) as [[a|e] st1]; simpl in *.
  - destruct (Hk a (HQ a st1 eq_refl) st1) as (evs2 & Hl2 & HP2).
    exists (evs1 ++ evs2). rewrite Hl2, Hl1, app_assoc.
    split; [ reflexivity | apply Forall_app; split; assumption ].
  - exists evs1. split; assumption.
Qed.

Lemma emits_bind (m : M A) (k : A -> M B) :
  emits_only P m -> (forall a, emits_only P (k a)) -> emits_only P (bind m k).
Proof.
  intros Hm Hk. apply (emits_bind_post (fun _ => True)); auto.
Qed.

Lemma emits_try_except (c : exn -> bool) (m : M A) (h : exn -> M A) :
  emits_only P m -> (forall e, emits_only P (h e)) -> emits_only P (try_except c m h).
Proof.
  intros Hm Hh st. unfold try_except.
  destruct (Hm st) as (evs1 & Hl1 & HP1).
  destruct (m st) as [[a|e] st1]; simpl in *.
  - exists evs1. split; assumption.
  - destruct (c e).
    + destruct (Hh e st1) as (evs2 & Hl2 & HP2).
      exists (evs1 ++ evs2). rewrite Hl2, Hl1, app_assoc.
      split; [ reflexivity | apply Forall_app; split; assumption ].
    + exists evs1. split; assumption.
Qed.

End Emission.

Lemma emits_weaken {A : Type} (P Q : Event -> Prop) (m : M A) :
  (forall ev, P ev -> Q ev) -> emits_only P m -> emits_only Q m.
Proof.
  intros HPQ Hm st. destruct (Hm st) as (evs & Hl & HP).
  exists evs. split; [ exact Hl | ]. eapply Forall_impl; eauto.
Qed.

Create HintDb emits.
#[local] Hint Resolve emits_ret emits_raise emits_lift emits_get_messages
  emits_set_messages emits_append_message : emits.

(** Closes [emits_only] goals by following the structure of the
    computation; [side] proves that an emitted event is allowed. *)
Ltac emits_with side :=
  repeat first
    [ progress cbv zeta
    | solve [ auto with emits ]
    | apply emits_emit; solve [ side ]
    | apply emits_external; solve [ side ]
    | apply emits_bind; [ | intros ? ]
    | apply emits_try_except; [ | intros ? ]
    | match goal with
      | |- emits_only _ (if ?c then _ else _) => destruct c
      | |- emits_only _ (match ?x with _ => _ end) => destruct x
      end ].

Section NoReturn.

Context {A B : Type}.

Lemma never_returns_raise (e : exn) : never_returns (@raise A e).
Proof. intros st a st'. discriminate. Qed.

Lemma never_returns_bind (m : M A) (k : A -> M B) :
  (forall a, never_returns (k a)) -> never_returns (bind m k).
Proof.
  intros Hk st b st'. unfold bind.
  destruct (m st) as [[a|e] st1]; [ apply Hk | discriminate ].
Qed.

Lemma never_returns_bind_l (m : M A) (k : A -> M B) :
  never_returns m -> never_returns (bind m k).
Proof.
  intros Hm st b st'. unfold bind. specialize (Hm st).
  destruct (m st) as [[a|e] st1]; [ exfalso; exact (Hm a st1 eq_refl) | discriminate ].
Qed.

End NoReturn.

(** ** Argument validation and provider selection *)

(** X1. The checks of [get_args] come before every effect: without a base
    URL the entry point stops with the error about the base URL (also when
    the project key is missing too), with a base URL but no project key it
    stops with the error about the project key, and in both cases nothing
    has been printed, requested or run.  When the checks pass, the arguments
    handed on carry exactly the two values found. *)
Theorem X1_validation_precedes_effects (w : World) (ns : Namespace)
    (inputs : list string) (st : State) :
  (ns_base_url ns = None ->
     main_entry w ns inputs st = (Raise (ValueError "Base URL is not set"), st))
  /\ (ns_base_url ns <> None -> ns_project_key ns = None ->
        main_entry w ns inputs st = (Raise (ValueError "Project key is not set"), st))
  /\ (forall args, get_args ns = Ok args ->
        ns_base_url ns = Some (base_url args)
        /\ ns_project_key ns = Some (project_key args)
        /\ main_entry w ns inputs st = main w args inputs st).
Proof.
  unfold main_entry, get_args, bind, lift.
  destruct (ns_base_url ns) as [b|]; destruct (ns_project_key ns) as [p|];
    (split; [ | split ]); try discriminate; try reflexivity; try congruence.
  intros args [= <-]. repeat split.
Qed.

Lemma console_call_run (w : World) (ev : Event) (st : State) :
  console_call w ev st
  = (match console_render w (st_log st) ev with
     | Returned _ => Ok tt
     | Failed i => Raise (ExternalError i)
     end,
     {| st_log := st_log st ++ [ev]; st_messages := st_messages st |}).
Proof.
  unfold console_call, external.
  destruct (console_render w (st_log st) ev) as [[]|i]; reflexivity.
Qed.

Lemma emits_console (w : World) (ev : Event) (P : Event -> Prop) :
  P ev -> emits_only P (console_call w ev).
Proof. intros H. apply emits_external. exact H. Qed.

Lemma keeps_console (w : World) (ev : Event) : keeps_messages (console_call w ev).
Proof. apply keeps_external. Qed.

Section ProviderSelection.

Variable w : World.
Variable args : Args.
Variable inputs : list string.
Variable st : State.

Let arguments_table : Event :=
  EConsoleTable "Arguments" (map (fun kv => (fst kv, py_format w (snd kv))) (vars args)).
Let printed : State :=
  {| st_log := st_log st ++ [arguments_table]; st_messages := st_messages st |}.

(** X2. For a service other than stash and bitbucket [main] stops right
    after the table of arguments: with the error of the console when the
    table cannot be rendered, otherwise with [NotImplementedError] (after the
    line announcing the manual mode, unless the service is github).  No
    token is read, and no HTTP request, git command or LLM request is
    made. *)
Theorem X2_unsupported_service_stops_early :
  service args <> "stash" -> service args <> "bitbucket" ->
  main w args inputs st
  = match console_render w (st_log st) arguments_table with
    | Failed i => (Raise (ExternalError i), printed)
    | Returned _ =>
        if String.eqb (service args) "github"
        then (Raise (NotImplementedError "GitHub is not implemented yet"), printed)
        else (Raise (NotImplementedError "Manual mode is not implemented yet"),
              {| st_log := st_log printed ++ [EPrint "Manual mode..."];
                 st_messages := st_messages st |})
    end.
Proof.
  intros Hs Hb. unfold main, make_api, console_print_table.
  unfold bind at 1. fold arguments_table. rewrite console_call_run. fold printed.
  destruct (console_render w (st_log st) arguments_table) as [u|i]; [ | reflexivity ].
  destruct (String.eqb_spec (service args) "stash") as [E|_]; [ contradiction | ].
  destruct (String.eqb_spec (service args) "bitbucket") as [E|_]; [ contradiction | ].
  simpl. destruct (String.eqb (service args) "github"); reflexivity.
Qed.

(** X3. With the service stash or bitbucket, the table of arguments
    rendered and no [STASH_HTTP_ACCESS_TOKEN] in the environment, [main]
    ends in the [KeyError] of the lookup, uncaught: the provider is built
    outside the guarded block, so this is not turned into the exit with
    status 1, and only the table of arguments has been printed.  (When the
    console cannot render the table, its error comes first.) *)
Theorem X3_missing_token_is_uncaught :
  service args = "stash" \/ service args = "bitbucket" ->
  environ w !! "STASH_HTTP_ACCESS_TOKEN" = None ->
  main w args inputs st
  = match console_render w (st_log st) arguments_table with
    | Failed i => (Raise (ExternalError i), printed)
    | Returned _ => (Raise (KeyError (PStr "STASH_HTTP_ACCESS_TOKEN")), printed)
    end.
Proof.
  intros Hs Htok. unfold main, make_api, console_print_table.
  unfold bind at 1. fold arguments_table. rewrite console_call_run. fold printed.
  destruct (console_render w (st_log st) arguments_table) as [u|i]; [ | reflexivity ].
  assert (Hsel : String.eqb (service args) "stash" || String.eqb (service args) "bitbucket"
                 = true).
  { destruct Hs as [-> | ->]; reflexivity. }
  rewrite Hsel.
  unfold StashAPI.__init__, StashAPI.os_environ_getitem. rewrite Htok. reflexivity.
Qed.

End ProviderSelection.

(** ** Fetching: requests, errors and the guarded block *)

Lemma keeps_try_except {A : Type} (c : exn -> bool) (m : M A) (h : exn -> M A) :
  keeps_messages m -> (forall e, keeps_messages (h e)) -> keeps_messages (try_except c m h).
Proof.
  intros Hm Hh st. unfold try_except. specialize (Hm st).
  destruct (m st) as [[a|e] st1]; simpl in *; [ exact Hm | ].
  destruct (c e); [ rewrite Hh; exact Hm | exact Hm ].
Qed.

Lemma silent_run {A : Type} (m : M A) (st : State) :
  emits_only (fun _ => False) m -> keeps_messages m -> snd (m st) = st.
Proof.
  intros He Hk. destruct (He st) as (evs & Hl & HF). specialize (Hk st).
  destruct evs as [|ev evs]; [ | inversion HF; contradiction ].
  rewrite app_nil_r in Hl. destruct (snd (m st)), st; simpl in *. congruence.
Qed.

Lemma getitem_str_inv_ok (v : pyval) (key : string) (x : pyval) :
  getitem_str v key = Ok x -> exists d, v = PDict d /\ d !! key = Some x.
Proof.
  unfold getitem_str. destruct v; try discriminate.
  destruct (d !! key) eqn:E; [ | discriminate ].
  intros [= <-]. exists d. split; [ reflexivity | exact E ].
Qed.

Lemma getitem_str_is_Exception (v : pyval) (key : string) (e : exn) :
  getitem_str v key = Raise e -> is_Exception e = true.
Proof.
  unfold getitem_str. destruct v; try (intros [= <-]; reflexivity).
  destruct (d !! key); [ discriminate | intros [= <-]; reflexivity ].
Qed.

Lemma getitem_int_is_Exception (v : pyval) (i : Z) (e : exn) :
  getitem_int v i = Raise e -> is_Exception e = true.
Proof.
  unfold getitem_int. destruct v; try (intros [= <-]; reflexivity).
  - destruct (seq_index _ i); [ discriminate | intros [= <-]; reflexivity ].
  - destruct (seq_index l i); [ discriminate | intros [= <-]; reflexivity ].
Qed.

Section Exceptions.

Context {A B : Type}.

Lemma raises_exceptions_ret (a : A) : raises_exceptions (ret a).
Proof. intros st e st'. discriminate. Qed.

Lemma raises_exceptions_external (oracle : list Event -> ext A) (ev : Event) :
  raises_exceptions (external oracle ev).
Proof.
  intros st e st' H. apply external_inv_raise in H as (i & ->). reflexivity.
Qed.

Lemma raises_exceptions_bind (m : M A) (k : A -> M B) :
  raises_exceptions m -> (forall a, raises_exceptions (k a)) -> raises_exceptions (bind m k).
Proof.
  intros Hm Hk st e st' H.
  apply bind_inv_raise in H as [H | (a & st1 & _ & H)]; [ exact (Hm _ _ _ H) | exact (Hk _ _ _ _ H) ].
Qed.

End Exceptions.

Lemma raises_exceptions_getitem_str (v : pyval) (key : string) :
  raises_exceptions (lift (getitem_str v key)).
Proof.
  intros st e st' H. apply lift_inv_raise in H. exact (getitem_str_is_Exception _ _ _ H).
Qed.

Lemma raises_exceptions_getitem_int (v : pyval) (i : Z) :
  raises_exceptions (lift (getitem_int v i)).
Proof.
  intros st e st' H. apply lift_inv_raise in H. exact (getitem_int_is_Exception _ _ _ H).
Qed.

Lemma raises_exceptions_description (v : pyval) :
  raises_exceptions
    (try_except is_KeyError (lift (getitem_str v "description"))
       (fun _ => ret (PStr EmptyString))).
Proof.
  intros st e st'. unfold try_except, lift, ret.
  destruct (getitem_str v "description") as [x|e0] eqn:E; [ discriminate | ].
  destruct (is_KeyError e0); [ discriminate | ].
  intros [= <- _]. exact (getitem_str_is_Exception _ _ _ E).
Qed.

Lemma get_data_raises_exceptions (w : World) (api : StashAPI.t) :
  raises_exceptions (StashAPI.get_data w api).
Proof.
  unfold StashAPI.get_data, StashAPI._get_repo_info_from_stash,
    StashAPI._get_repo_diff_data_from_stash.
  repeat first
    [ apply raises_exceptions_ret
    | apply raises_exceptions_external
    | apply raises_exceptions_getitem_str
    | apply raises_exceptions_getitem_int
    | apply raises_exceptions_description
    | apply raises_exceptions_bind; [ | intros ? ] ].
Qed.

Lemma get_data_keeps_messages (w : World) (api : StashAPI.t) :
  keeps_messages (StashAPI.get_data w api).
Proof.
  unfold StashAPI.get_data, StashAPI._get_repo_info_from_stash,
    StashAPI._get_repo_diff_data_from_stash.
  repeat first
    [ apply keeps_ret | apply keeps_external | apply keeps_lift
    | apply keeps_try_except; [ | intros ? ]
    | apply keeps_bind; [ | intros ? ] ].
Qed.

Lemma get_data_emits (w : World) (api : StashAPI.t) (P : Event -> Prop) :
  P (EHttpGet (StashAPI.url_info api) (StashAPI.headers api)) ->
  P (EHttpGet (StashAPI.url_diff api) (StashAPI.headers api)) ->
  emits_only P (StashAPI.get_data w api).
Proof.
  intros H1 H2.
  unfold StashAPI.get_data, StashAPI._get_repo_info_from_stash,
    StashAPI._get_repo_diff_data_from_stash.
  emits_with assumption.
Qed.

Section FetchRuns.

Variable w : World.
Variable api : StashAPI.t.
Variable st : State.

Let get_info : Event := EHttpGet (StashAPI.url_info api) (StashAPI.headers api).
Let get_diff : Event := EHttpGet (StashAPI.url_diff api) (StashAPI.headers api).
Let st1 : State := {| st_log := st_log st ++ [get_info]; st_messages := st_messages st |}.
Let st2 : State := {| st_log := st_log st1 ++ [get_diff]; st_messages := st_messages st |}.

(** X5. [get_data] asks for the metadata first.  When that request fails,
    its error comes back and the diff summary is never asked for; when it
    answers, the diff summary is asked for next, and these two requests are
    all that [get_data] does to the outside, whatever the answers hold: the
    members are read only after both requests have been made. *)
Theorem X5_two_requests_in_order :
  (forall i,
     requests_get_json w (st_log st) (StashAPI.url_info api) (StashAPI.headers api)
     = Failed i ->
     StashAPI.get_data w api st = (Raise (ExternalError i), st1))
  /\ (forall pr_info_data,
        requests_get_json w (st_log st) (StashAPI.url_info api) (StashAPI.headers api)
        = Returned pr_info_data ->
        snd (StashAPI.get_data w api st) = st2).
Proof.
  split.
  - intros i H. unfold StashAPI.get_data.
    apply bind_raise. unfold StashAPI._get_repo_info_from_stash, external.
    rewrite H. reflexivity.
  - intros pi H. unfold StashAPI.get_data.
    unfold bind at 1. unfold StashAPI._get_repo_info_from_stash at 1. unfold external at 1.
    rewrite H. fold get_info. fold st1.
    unfold bind at 1. unfold StashAPI._get_repo_diff_data_from_stash at 1.
    unfold external at 1.
    destruct (requests_get_json w (st_log st1) (StashAPI.url_diff api) (StashAPI.headers api))
      as [dd|i]; [ | reflexivity ].
    apply silent_run.
    + emits_with fail.
    + repeat first
        [ apply keeps_ret | apply keeps_lift
        | apply keeps_try_except; [ | intros ? ]
        | apply keeps_bind; [ | intros ? ] ].
Qed.

Variables pr_info_data pr_diff_data : pyval.
Hypothesis info_response :
  requests_get_json w (st_log st) (StashAPI.url_info api) (StashAPI.headers api)
  = Returned pr_info_data.
Hypothesis diff_response :
  requests_get_json w (st_log st1) (StashAPI.url_diff api) (StashAPI.headers api)
  = Returned pr_diff_data.

Lemma get_data_after_requests :
  StashAPI.get_data w api st
  = bind (lift (getitem_str pr_diff_data "toHash")) (fun to_commit =>
    bind (lift (getitem_str pr_diff_data "fromHash")) (fun from_commit =>
    bind (lift (getitem_str pr_info_data "title")) (fun pr_title =>
    bind (try_except is_KeyError (lift (getitem_str pr_info_data "description"))
            (fun _ => ret (PStr EmptyString))) (fun pr_description =>
    bind (lift (getitem_str pr_info_data "links")) (fun links =>
    bind (lift (getitem_str links "self")) (fun self_links =>
    bind (lift (getitem_int self_links 0)) (fun first =>
    bind (lift (getitem_str first "href")) (fun pr_link =>
    ret {| StashAPI.to_commit := to_commit;
           StashAPI.from_commit := from_commit;
           StashAPI.pr_title := pr_title;
           StashAPI.pr_description := pr_description;
           StashAPI.pr_link := pr_link |})))))))) st2.
Proof.
  unfold StashAPI.get_data.
  unfold bind at 1. unfold StashAPI._get_repo_info_from_stash at 1. unfold external at 1.
  rewrite info_response. fold get_info. fold st1.
  unfold bind at 1. unfold StashAPI._get_repo_diff_data_from_stash at 1.
  unfold external at 1.
  rewrite diff_response. reflexivity.
Qed.

Lemma description_step (info : gmap string pyval) (s : State) :
  try_except is_KeyError (lift (getitem_str (PDict info) "description"))
    (fun _ => ret (PStr EmptyString)) s
  = (Ok (match info !! "description" with
         | Some v => v
         | None => PStr EmptyString
         end), s).
Proof.
  unfold try_except, lift, getitem_str.
  destruct (info !! "description"); reflexivity.
Qed.

Lemma get_data_ok (info : gmap string pyval)
    (to_hash from_hash title links self_links first href : pyval) :
  pr_info_data = PDict info ->
  getitem_str pr_diff_data "toHash" = Ok to_hash ->
  getitem_str pr_diff_data "fromHash" = Ok from_hash ->
  getitem_str pr_info_data "title" = Ok title ->
  getitem_str pr_info_data "links" = Ok links ->
  getitem_str links "self" = Ok self_links ->
  getitem_int self_links 0 = Ok first ->
  getitem_str first "href" = Ok href ->
  StashAPI.get_data w api st
  = (Ok {| StashAPI.to_commit := to_hash;
           StashAPI.from_commit := from_hash;
           StashAPI.pr_title := title;
           StashAPI.pr_description :=
             match info !! "description" with
             | Some v => v
             | None => PStr EmptyString
             end;
           StashAPI.pr_link := href |}, st2).
Proof.
  intros Hpi Hto Hfrom Htitle Hlinks Hself Hfirst Hhref.
  rewrite get_data_after_requests. rewrite Hto, Hfrom, Htitle, Hlinks.
  unfold bind at 1. unfold lift at 1.
  unfold bind at 1. unfold lift at 1.
  unfold bind at 1. unfold lift at 1.
  rewrite Hpi. rewrite (bind_ok _ _ _ _ _ (description_step info st2)).
  unfold bind at 1. unfold lift at 1.
  rewrite Hself. unfold bind at 1. unfold lift at 1.
  rewrite Hfirst. unfold bind at 1. unfold lift at 1.
  rewrite Hhref. unfold bind at 1. unfold lift at 1.
  reflexivity.
Qed.

(** X7. Once both requests have answered, the first lookup that fails
    decides the error of [get_data], in the order [toHash], [fromHash],
    [title], [links], [self], first element, [href]: a diff summary
    without [toHash] gives the [KeyError] of [toHash] whatever the metadata
    holds, and an empty list of self links gives an [IndexError]. *)
Theorem X7_first_failing_lookup_decides :
  (forall e, getitem_str pr_diff_data "toHash" = Raise e ->
     StashAPI.get_data w api st = (Raise e, st2))
  /\ (forall d, pr_diff_data = PDict d -> d !! "toHash" = None ->
        StashAPI.get_data w api st = (Raise (KeyError (PStr "toHash")), st2))
  /\ (forall t e, getitem_str pr_diff_data "toHash" = Ok t ->
        getitem_str pr_diff_data "fromHash" = Raise e ->
        StashAPI.get_data w api st = (Raise e, st2))
  /\ (forall t f e, getitem_str pr_diff_data "toHash" = Ok t ->
        getitem_str pr_diff_data "fromHash" = Ok f ->
        getitem_str pr_info_data "title" = Raise e ->
        StashAPI.get_data w api st = (Raise e, st2))
  /\ (forall t f title links, getitem_str pr_diff_data "toHash" = Ok t ->
        getitem_str pr_diff_data "fromHash" = Ok f ->
        getitem_str pr_info_data "title" = Ok title ->
        getitem_str pr_info_data "links" = Ok links ->
        getitem_str links "self" = Ok (PList []) ->
        StashAPI.get_data w api st = (Raise IndexError, st2)).
Proof.
  rewrite get_data_after_requests.
  split; [ | split; [ | split; [ | split ] ] ].
  - intros e H. rewrite H. reflexivity.
  - intros d -> H. rewrite (getitem_str_absent _ _ H). reflexivity.
  - intros t e H1 H2. rewrite H1, H2. reflexivity.
  - intros t f e H1 H2 H3. rewrite H1, H2, H3. reflexivity.
  - intros t f title links H1 H2 H3 H4 H5.
    destruct (getitem_str_inv_ok _ _ _ H3) as (info & Hpi & _).
    rewrite H1, H2, H3, H4.
    unfold bind at 1. unfold lift at 1.
    unfold bind at 1. unfold lift at 1.
    unfold bind at 1. unfold lift at 1.
    rewrite Hpi. rewrite (bind_ok _ _ _ _ _ (description_step info st2)).
    unfold bind at 1. unfold lift at 1.
    rewrite H5. reflexivity.
Qed.

(** X8. A [description] member that is present is handed on as it is,
    whatever its value: in particular a JSON [null] makes the description
    [None], not the empty string.  With the required members there,
    [get_data] returns exactly that value. *)
Theorem X8_present_description_is_kept (info : gmap string pyval) (v : pyval) :
  pr_info_data = PDict info ->
  info !! "description" = Some v ->
  (forall d st', StashAPI.get_data w api st = (Ok d, st') -> StashAPI.pr_description d = v)
  /\ (forall to_hash from_hash title links self_links first href,
        getitem_str pr_diff_data "toHash" = Ok to_hash ->
        getitem_str pr_diff_data "fromHash" = Ok from_hash ->
        getitem_str pr_info_data "title" = Ok title ->
        getitem_str pr_info_data "links" = Ok links ->
        getitem_str links "self" = Ok self_links ->
        getitem_int self_links 0 = Ok first ->
        getitem_str first "href" = Ok href ->
        StashAPI.get_data w api st
        = (Ok {| StashAPI.to_commit := to_hash;
                 StashAPI.from_commit := from_hash;
                 StashAPI.pr_title := title;
                 StashAPI.pr_description := v;
                 StashAPI.pr_link := href |}, st2)).
Proof.
  intros Hpi Hdesc. split.
  - intros d st'. rewrite get_data_after_requests. intros H.
    apply bind_inv_ok in H as (to_hash & s3 & _ & H).
    apply bind_inv_ok in H as (from_hash & s4 & _ & H).
    apply bind_inv_ok in H as (title & s5 & _ & H).
    rewrite Hpi in H. rewrite (bind_ok _ _ _ _ _ (description_step info s5)) in H.
    rewrite Hdesc in H.
    apply bind_inv_ok in H as (links & s6 & _ & H).
    apply bind_inv_ok in H as (self_links & s7 & _ & H).
    apply bind_inv_ok in H as (first & s8 & _ & H).
    apply bind_inv_ok in H as (href & s9 & _ & H).
    injection H as <- _. reflexivity.
  - intros to_hash from_hash title links self_links first href H1 H2 H3 H4 H5 H6 H7.
    rewrite (get_data_ok info to_hash from_hash title links self_links first href);
      try assumption.
    rewrite Hdesc. reflexivity.
Qed.

End FetchRuns.

Lemma make_api_inv_ok (w : World) (args : Args) (s0 s : State) (api : StashAPI.t) :
  make_api w args s0 = (Ok api, s) ->
  s = s0
  /\ exists tok,
       environ w !! "STASH_HTTP_ACCESS_TOKEN" = Some tok
       /\ StashAPI.headers api
          = [("Authorization", "Bearer " +:+ tok); ("Accept", "application/json")]
       /\ StashAPI.url_info api = pull_request_url args
       /\ StashAPI.url_diff api = pull_request_url args +:+ "/diff".
Proof.
  unfold make_api.
  destruct (String.eqb (service args) "stash" || String.eqb (service args) "bitbucket").
  - unfold StashAPI.__init__, StashAPI.os_environ_getitem, bind, ret, raise.
    destruct (environ w !! "STASH_HTTP_ACCESS_TOKEN") as [tok|]; [ | discriminate ].
    simpl. intros [= <- <-]. split; [ reflexivity | ].
    exists tok. repeat split.
  - destruct (String.eqb (service args) "github"); discriminate.
Qed.

Lemma make_api_emits (w : World) (args : Args) (P : Event -> Prop) :
  P (EPrint "Manual mode...") -> emits_only P (make_api w args).
Proof.
  intros H. unfold make_api, StashAPI.__init__, StashAPI.os_environ_getitem.
  emits_with assumption.
Qed.

Lemma fetch_data_emits (w : World) (api : StashAPI.t) (P : Event -> Prop) :
  P (EHttpGet (StashAPI.url_info api) (StashAPI.headers api)) ->
  P (EHttpGet (StashAPI.url_diff api) (StashAPI.headers api)) ->
  (forall e, P (EPrintError e)) ->
  (forall s, P (EPrint s)) ->
  emits_only P (fetch_data w api).
Proof.
  intros H1 H2 H3 H4. unfold fetch_data, exit.
  apply emits_try_except; [ apply get_data_emits; assumption | intros e ].
  emits_with auto.
Qed.

Section FailedFetch.

Variable w : World.
Variable args : Args.
Variable inputs : list string.
Variable st : State.

Let arguments_table : Event :=
  EConsoleTable "Arguments" (map (fun kv => (fst kv, py_format w (snd kv))) (vars args)).
Let printed : State :=
  {| st_log := st_log st ++ [arguments_table]; st_messages := st_messages st |}.

(** X4. Once the table of arguments is rendered and the provider built,
    whatever goes wrong inside [get_data] (a failed request, a missing
    member, a value of the wrong shape) makes [main] print the error and
    the message of the guarded block and exit with status 1; no git command
    and no LLM request has been made by then. *)
Theorem X4_failed_fetch_exits_with_1 (api : StashAPI.t) (e : exn) (st2 : State) :
  console_render w (st_log st) arguments_table = Returned tt ->
  make_api w args printed = (Ok api, printed) ->
  StashAPI.get_data w api printed = (Raise e, st2) ->
  main w args inputs st
  = (Raise (SystemExit 1),
     {| st_log := st_log st2
                    ++ [EPrintError e;
                        EPrint "Problems... but I am not going to handle it. Happy debugging sucker"];
        st_messages := st_messages st2 |})
  /\ exists evs,
       st_log st2 = st_log st ++ evs
       /\ Forall (fun ev => ~ is_subprocess ev /\ ~ is_llm_request ev) evs.
Proof.
  intros Hconsole Hapi Hget. split.
  - unfold main, console_print_table.
    unfold bind at 1. fold arguments_table. rewrite console_call_run, Hconsole.
    fold printed.
    rewrite (bind_ok _ _ _ _ _ Hapi).
    apply bind_raise. unfold fetch_data, try_except. rewrite Hget.
    rewrite (get_data_raises_exceptions w api _ _ _ Hget).
    unfold bind, emit, exit, raise. simpl. rewrite <- app_assoc. reflexivity.
  - assert (He : emits_only (fun ev => ~ is_subprocess ev /\ ~ is_llm_request ev)
                   (StashAPI.get_data w api)).
    { apply get_data_emits; simpl; tauto. }
    destruct (He printed) as (evs & Hl & HP). rewrite Hget in Hl. simpl in Hl.
    eexists. split.
    + rewrite Hl. unfold printed. simpl. rewrite <- app_assoc. reflexivity.
    + constructor; [ simpl; tauto | exact HP ].
Qed.

End FailedFetch.

(** ** Where requests go *)

Lemma generate_emits (w : World) (gpt_type : string) (ms : list message)
    (url : option string) (P : Event -> Prop) :
  (forall k, P (EOpenAICreate k gpt_type ms)) ->
  (forall u body, P (EHttpPost u [("Content-Type", "application/json")] body)) ->
  emits_only P (generate_llm_response w gpt_type ms url).
Proof.
  intros H1 H2. unfold generate_llm_response. emits_with auto.
Qed.

Lemma analyze_emits (w : World) (t ds : pyval) (diff gpt_type : string) (pp : bool)
    (url : option string) (P : Event -> Prop) :
  (forall k ms, P (EOpenAICreate k gpt_type ms)) ->
  (forall u body, P (EHttpPost u [("Content-Type", "application/json")] body)) ->
  (forall s, P (EPrint s)) ->
  emits_only P (analyze_pr_with_GPT w t ds diff gpt_type pp url).
Proof.
  intros H1 H2 H3. unfold analyze_pr_with_GPT, call_generate_llm_response.
  pose proof (fun ms => generate_emits w gpt_type ms url P (fun k => H1 k ms) H2) as Hg.
  emits_with auto.
Qed.

Lemma chat_turn_emits (w : World) (args : Args) (user_input : string) (P : Event -> Prop) :
  (forall s, P (EPrint s)) -> emits_only P (chat_turn w args user_input).
Proof.
  intros H st. exists [EPrint LF]. rewrite chat_turn_run. simpl.
  split; [ reflexivity | repeat constructor; apply H ].
Qed.

Lemma interactive_chat_emits (w : World) (args : Args) (inputs : list string)
    (P : Event -> Prop) :
  (forall s, P (EPrint s)) -> (forall p a, P (EConsoleInput p a)) ->
  emits_only P (interactive_chat w args inputs).
Proof.
  intros H1 H2. induction inputs as [|u rest IH]; simpl.
  - apply emits_raise.
  - apply emits_bind; [ apply emits_emit; apply H2 | intros _ ].
    destruct (String.eqb u "exit"); [ apply emits_raise | ].
    apply emits_bind; [ apply chat_turn_emits; exact H1 | intros _; exact IH ].
Qed.

Lemma compute_diff_emits (w : World) (args : Args) (d : StashAPI.data) (P : Event -> Prop) :
  (forall cmd, P (ESubprocess cmd)) -> (forall s, P (EPrint s)) ->
  (forall s, P (EConsolePrint s)) ->
  emits_only P (compute_diff w args d).
Proof.
  intros H1 H2 H3. unfold compute_diff, exit. emits_with auto.
Qed.

Lemma review_emits (w : World) (args : Args) (d : StashAPI.data) (diff : string)
    (inputs : list string) (P : Event -> Prop) :
  (forall k ms, P (EOpenAICreate k (llm_type args) ms)) ->
  (forall u body, P (EHttpPost u [("Content-Type", "application/json")] body)) ->
  (forall s, P (EPrint s)) -> (forall s, P (EConsolePrint s)) ->
  (forall v, P (EConsoleMarkdown v)) -> (forall t rows, P (EConsoleTable t rows)) ->
  (forall p a, P (EConsoleInput p a)) ->
  emits_only P (review w args d diff inputs).
Proof.
  intros H1 H2 H3 H4 H5 H6 H7. unfold review, console_print_table.
  pose proof (fun t ds pp url =>
                analyze_emits w t ds diff (llm_type args) pp url P H1 H2 H3) as Ha.
  pose proof (interactive_chat_emits w args inputs P H3 H7) as Hi.
  emits_with auto.
Qed.

(** X6. Every GET request of a run of [main] goes to the address of the
    pull request named on the command line or to its [/diff] and carries
    the token of the environment as bearer; every POST to a self-hosted
    backend carries the content type as its only header, so neither the
    token nor the API key. *)
Theorem X6_credentials_stay_with_their_service (w : World) (args : Args)
    (inputs : list string) (tok : string) :
  environ w !! "STASH_HTTP_ACCESS_TOKEN" = Some tok ->
  emits_only (credentials_policy tok args) (main w args inputs).
Proof.
  intros Htok. unfold main, console_print_table.
  apply emits_bind; [ apply emits_console; exact I | intros _ ].
  apply (emits_bind_post _ (fun api =>
           StashAPI.headers api
           = [("Authorization", "Bearer " +:+ tok); ("Accept", "application/json")]
           /\ StashAPI.url_info api = pull_request_url args
           /\ StashAPI.url_diff api = pull_request_url args +:+ "/diff")).
  - intros s api s' H. apply make_api_inv_ok in H as (_ & tok' & Ht & Hh & Hu & Hd).
    rewrite Htok in Ht. injection Ht as <-. repeat split; assumption.
  - apply make_api_emits. exact I.
  - intros api (Hh & Hu & Hd).
    apply emits_bind.
    { apply fetch_data_emits; simpl; rewrite ?Hh, ?Hu, ?Hd; auto. }
    intros d.
    apply emits_bind; [ apply emits_console; exact I | intros _ ].
    apply emits_bind.
    { apply compute_diff_emits; intros; exact I. }
    intros diff. apply review_emits; intros; simpl; auto.
Qed.

(** ** The LLM client: addresses, malformed answers, one request *)

Section ClientEdges.

Variable w : World.
Variable gpt_type : string.
Variable messages : list message.
Variable st : State.

Let post_headers : list (string * string) := [("Content-Type", "application/json")].
Let post_data : PostData :=
  {| pd_model := gpt_type; pd_messages := messages; pd_temperature := "0.7" |}.

(** X10. An answer of the wrong shape surfaces as the error of the first
    lookup that fails, after the request has been made: from a self-hosted
    backend, a JSON object without [choices] gives the [KeyError] of
    [choices] and an empty [choices] list an [IndexError]; from the hosted
    backend, a completion without choices gives an [IndexError]. *)
Theorem X10_malformed_answers (url : option string) :
  (gpt_type ∉ OPENAI_GPT_TYPES ->
   forall j,
     requests_post_json w (st_log st)
       (py_format w (of_optional url) +:+ "/v1/chat/completions") post_headers post_data
     = Returned j ->
     let run := generate_llm_response w gpt_type messages url st in
     (forall e, getitem_str j "choices" = Raise e -> fst run = Raise e)
     /\ (forall d, j = PDict d -> d !! "choices" = None ->
           fst run = Raise (KeyError (PStr "choices")))
     /\ (getitem_str j "choices" = Ok (PList []) -> fst run = Raise IndexError)
     /\ (forall cs c0 e, getitem_str j "choices" = Ok cs -> getitem_int cs 0 = Ok c0 ->
           getitem_str c0 "message" = Raise e -> fst run = Raise e))
  /\ (gpt_type ∈ OPENAI_GPT_TYPES ->
      forall k cc,
        environ w !! "OPENAI_API_KEY" = Some k ->
        chat_completions_create w (st_log st) (Some k) gpt_type messages = Returned cc ->
        choices cc = [] ->
        generate_llm_response w gpt_type messages url st
        = (Raise IndexError,
           {| st_log := st_log st ++ [EOpenAICreate (Some k) gpt_type messages];
              st_messages := st_messages st |})).
Proof.
  split.
  - intros Hout j Hj run. subst run. unfold generate_llm_response.
    rewrite (bool_decide_eq_false_2 _ Hout).
    unfold bind, external, lift, ret.
    fold post_headers post_data. rewrite Hj. cbv beta iota.
    split; [ | split; [ | split ] ].
    + intros e H. rewrite H. reflexivity.
    + intros d -> H. rewrite (getitem_str_absent _ _ H). reflexivity.
    + intros H. rewrite H. reflexivity.
    + intros cs c0 e H1 H2 H3. rewrite H1. cbv beta iota. rewrite H2. cbv beta iota.
      rewrite H3. reflexivity.
  - intros Hin k cc Hk Hcc Hnil.
    rewrite (generate_hosted_run w gpt_type messages url st k Hin Hk), Hcc, Hnil.
    reflexivity.
Qed.

(** X11. One call of [generate_llm_response] calls a backend client (the
    hosted client's chat completion, or the HTTP POST) at most once and
    leaves the conversation it was given as it is; it calls none only when
    the hosted variant finds no API key.  Whether a call sends anything is
    the client's matter. *)
Theorem X11_at_most_one_request (url : option string) :
  exists evs,
    snd (generate_llm_response w gpt_type messages url st)
    = {| st_log := st_log st ++ evs; st_messages := st_messages st |}
    /\ (evs = []
        /\ gpt_type ∈ OPENAI_GPT_TYPES /\ environ w !! "OPENAI_API_KEY" = None
        \/ exists ev, evs = [ev] /\ is_llm_request ev).
Proof.
  destruct (decide (gpt_type ∈ OPENAI_GPT_TYPES)) as [Hin|Hout].
  - destruct (environ w !! "OPENAI_API_KEY") as [k|] eqn:Hk.
    + rewrite (generate_hosted_run w gpt_type messages url st k Hin Hk). simpl.
      eexists. split; [ reflexivity | ]. right. eexists. split; [ reflexivity | exact I ].
    + rewrite (generate_hosted_no_key w gpt_type messages url st Hin Hk). simpl.
      exists []. rewrite app_nil_r. split; [ destruct st; reflexivity | ].
      left. repeat split; assumption.
  - pose proof (generate_self_hosted_run w gpt_type messages url st Hout) as H.
    cbv zeta in H. destruct H as (H & _). rewrite H.
    eexists. split; [ reflexivity | ]. right. eexists. split; [ reflexivity | exact I ].
Qed.

End ClientEdges.

(** ** The prompt *)

Section PromptContent.

Variable w : World.

(** X12. When the first request to the backend fails, the error comes out
    of [analyze_pr_with_GPT] unchanged and the conversation then holds the
    four seed messages and no assistant message; a prompt that was to be
    printed has been printed all the same. *)
Theorem X12_failed_review_leaves_the_seed (pr_title pr_description : pyval)
    (diff_output gpt_type : string) (print_prompt : bool) (llm_url : option string)
    (st st' : State) (e : exn) :
  analyze_pr_with_GPT w pr_title pr_description diff_output gpt_type print_prompt llm_url st
  = (Raise e, st') ->
  st_messages st' = seed_messages w pr_title pr_description diff_output
  /\ (forall msg, e <> Exception_ msg)
  /\ (print_prompt = true ->
      In (EPrint (String.concat LF
                    [prompt; pr_description_message w pr_title pr_description;
                     diff_message diff_output; final_message]))
         (st_log st')).
Proof.
  intros H.
  pose proof (analyze_pr_with_GPT_run w pr_title pr_description diff_output gpt_type
                print_prompt llm_url st) as Hrun.
  cbv zeta in Hrun. rewrite Hrun in H. clear Hrun.
  match type of H with
  | context [generate_llm_response ?a ?b ?c ?d ?s] =>
      pose proof (generate_keeps_messages a b c d s) as Hk;
      pose proof (generate_emits a b c d (fun _ => True) (fun _ => I) (fun _ _ => I) s)
        as (evs & Hl & _);
      pose proof (nobare_generate a b c d s) as Hn;
      destruct (generate_llm_response a b c d s) as [[r|e0] s2]
  end; [ discriminate H | ].
  injection H as <- <-. simpl in *.
  split; [ exact Hk | ]. split.
  - intros msg Heq. apply (Hn msg). rewrite Heq. reflexivity.
  - intros ->. rewrite Hl. apply in_or_app. left. apply in_or_app. right. left. reflexivity.
Qed.

(** X13. The prompt carries the git output whole: the third seed message is
    the fixed heading, the name-status listing, a blank line, the unified
    diff and the fixed ending, so it is longer than the two outputs together
    by exactly 36 characters; nothing is cut, however long the diff.  The
    second seed message carries title and description as they render. *)
Theorem X13_prompt_carries_the_whole_diff (pr_title pr_description : pyval)
    (ns dm : string) :
  map content (seed_messages w pr_title pr_description (combine_diff ns dm)) !! 2%nat
  = Some (PStr ("Diff in unidiff format:" +:+ LF +:+ LF +:+ "    "
                  +:+ ns +:+ LF +:+ LF +:+ dm +:+ LF +:+ "    "))
  /\ String.length (diff_message (combine_diff ns dm))
     = (String.length ns + String.length dm + 36)%nat
  /\ pr_description_message w pr_title pr_description
     = "A description was given to help you assist in understand why these changes were made."
         +:+ LF +:+ "    The description was provided in a markdown format."
         +:+ LF +:+ LF +:+ "    Title: " +:+ py_format w pr_title
         +:+ LF +:+ "    Description: " +:+ py_format w pr_description
         +:+ LF +:+ "    "
  /\ (forall s, py_format w (PStr s) = s)
  /\ py_format w PNone = "None".
Proof.
  assert (Hflat : diff_message (combine_diff ns dm)
                  = "Diff in unidiff format:" +:+ LF +:+ LF +:+ "    "
                      +:+ ns +:+ LF +:+ LF +:+ dm +:+ LF +:+ "    ").
  { unfold diff_message, unlines, combine_diff. cbn [String.concat].
    rewrite !string_append_assoc. reflexivity. }
  split; [ | split; [ | split; [ | split ] ] ].
  - simpl. rewrite Hflat. reflexivity.
  - rewrite Hflat. rewrite !string_length_append. simpl. lia.
  - unfold pr_description_message, unlines. cbn [String.concat].
    rewrite !string_append_assoc. reflexivity.
  - reflexivity.
  - reflexivity.
Qed.

End PromptContent.

(** ** The diff stage: notice, failures, diff-only mode *)

Section DiffOutcomes.

Variable w : World.
Variable args : Args.
Variable d : StashAPI.data.
Variable st : State.

Let cmd1 : list pyval := name_status_cmd (StashAPI.from_commit d) (StashAPI.to_commit d).
Let cmd2 : list pyval := unified_diff_cmd args (StashAPI.from_commit d) (StashAPI.to_commit d).
Let s1 : State :=
  {| st_log := st_log st ++ [ESubprocess cmd1]; st_messages := st_messages st |}.
Let s2 : State :=
  {| st_log := st_log s1 ++ [ESubprocess cmd2]; st_messages := st_messages st |}.

(** X14. The notice about missing modifications is printed exactly when the
    unified diff is the empty string: any other output, be it a single
    line feed, goes on without it. *)
Theorem X14_notice_iff_unified_diff_empty (ns dm : string) :
  subprocess_check_output w (st_log st) cmd1 = Returned ns ->
  subprocess_check_output w (st_log s1) cmd2 = Returned dm ->
  exists evs,
    st_log (snd (compute_diff w args d st)) = st_log s2 ++ evs
    /\ (In (EPrint no_modifications_notice) evs <-> dm = EmptyString).
Proof.
  intros Hns Hdm.
  pose proof (compute_diff_run w args d st) as Hrun. cbv zeta in Hrun.
  fold cmd1 cmd2 in Hrun. fold s1 in Hrun. rewrite Hns, Hdm in Hrun. rewrite Hrun.
  clear Hrun.
  destruct (String.length dm =? 0)%nat eqn:El.
  - apply string_length_0 in El as ->.
    destruct (show_diff_only args); simpl.
    + eexists. rewrite <- !app_assoc. split; [ reflexivity | ].
      split; [ reflexivity | intros _; left; reflexivity ].
    + eexists. split; [ reflexivity | ].
      split; [ reflexivity | intros _; left; reflexivity ].
  - assert (Hne : dm <> EmptyString).
    { intros ->. discriminate El. }
    destruct (show_diff_only args); simpl.
    + eexists. rewrite <- !app_assoc. split; [ reflexivity | ].
      split; [ simpl; intros [H|[H|[]]]; discriminate H | intros H; contradiction ].
    + exists []. rewrite app_nil_r. split; [ reflexivity | ].
      split; [ intros [] | intros H; contradiction ].
Qed.

(** X15. A failing git command ends the stage with that failure and
    nothing printed: when the name-status listing fails the unified diff is
    not attempted, and when the unified diff fails the listing already
    obtained is dropped. *)
Theorem X15_git_failure_aborts_the_stage :
  (forall i, subprocess_check_output w (st_log st) cmd1 = Failed i ->
     compute_diff w args d st = (Raise (ExternalError i), s1))
  /\ (forall ns i, subprocess_check_output w (st_log st) cmd1 = Returned ns ->
        subprocess_check_output w (st_log s1) cmd2 = Failed i ->
        compute_diff w args d st = (Raise (ExternalError i), s2)).
Proof.
  pose proof (compute_diff_run w args d st) as Hrun. cbv zeta in Hrun.
  fold cmd1 cmd2 in Hrun. fold s1 in Hrun.
  split.
  - intros i H. rewrite Hrun, H. reflexivity.
  - intros ns i H1 H2. rewrite Hrun, H1, H2. reflexivity.
Qed.

End DiffOutcomes.

Lemma compute_diff_never_returns (w : World) (args : Args) (d : StashAPI.data) :
  show_diff_only args = true -> never_returns (compute_diff w args d).
Proof.
  intros H st a st'. rewrite compute_diff_run, H.
  destruct (subprocess_check_output w (st_log st) _); [ | discriminate ].
  destruct (subprocess_check_output w _ _); [ | discriminate ].
  destruct (console_render w _ _); discriminate.
Qed.

Lemma emits_bind_never {A B : Type} (P : Event -> Prop) (m : M A) (k : A -> M B) :
  emits_only P m -> never_returns m -> emits_only P (bind m k).
Proof.
  intros Hm Hn st. unfold bind. destruct (Hm st) as (evs & Hl & HP). specialize (Hn st).
  destruct (m st) as [[a|e] st1]; [ exfalso; exact (Hn a st1 eq_refl) | ].
  exists evs. split; assumption.
Qed.

Lemma keeps_bind_never {A B : Type} (m : M A) (k : A -> M B) :
  keeps_messages m -> never_returns m -> keeps_messages (bind m k).
Proof.
  intros Hm Hn st. unfold bind. specialize (Hm st). specialize (Hn st).
  destruct (m st) as [[a|e] st1]; [ exfalso; exact (Hn a st1 eq_refl) | exact Hm ].
Qed.

Lemma make_api_keeps_messages (w : World) (args : Args) : keeps_messages (make_api w args).
Proof.
  unfold make_api, StashAPI.__init__, StashAPI.os_environ_getitem.
  repeat first
    [ apply keeps_ret | apply keeps_raise | apply keeps_emit
    | apply keeps_bind; [ | intros ? ]
    | match goal with
      | |- keeps_messages (if ?c then _ else _) => destruct c
      | |- keeps_messages (match ?x with _ => _ end) => destruct x
      end ].
Qed.

Lemma fetch_data_keeps_messages (w : World) (api : StashAPI.t) :
  keeps_messages (fetch_data w api).
Proof.
  unfold fetch_data, exit.
  apply keeps_try_except; [ apply get_data_keeps_messages | intros e ].
  repeat first
    [ apply keeps_raise | apply keeps_emit | apply keeps_bind; [ | intros ? ] ].
Qed.

Lemma compute_diff_keeps_messages (w : World) (args : Args) (d : StashAPI.data) :
  keeps_messages (compute_diff w args d).
Proof.
  unfold compute_diff, exit.
  repeat first
    [ apply keeps_ret | apply keeps_raise | apply keeps_emit | apply keeps_external
    | apply keeps_bind; [ | intros ? ]
    | match goal with
      | |- keeps_messages (if ?c then _ else _) => destruct c
      end ].
Qed.

(** X16. In diff-only mode [main] never sends anything to an LLM backend,
    hosted or self-hosted, never builds a conversation, and never returns
    normally: it ends in the exit with status 0 after printing the diff, or
    in whatever failure came before. *)
Theorem X16_diff_only_never_reaches_the_llm (w : World) (args : Args)
    (inputs : list string) :
  show_diff_only args = true ->
  emits_only (fun ev => ~ is_llm_request ev) (main w args inputs)
  /\ keeps_messages (main w args inputs)
  /\ never_returns (main w args inputs).
Proof.
  intros Hd. unfold main, console_print_table. split; [ | split ].
  - apply emits_bind; [ apply emits_console; exact id | intros _ ].
    apply emits_bind; [ apply make_api_emits; exact id | intros api ].
    apply emits_bind; [ apply fetch_data_emits; intros; exact id | intros d ].
    apply emits_bind; [ apply emits_console; exact id | intros _ ].
    apply emits_bind_never.
    + apply compute_diff_emits; intros; exact id.
    + apply compute_diff_never_returns. exact Hd.
  - apply keeps_bind; [ apply keeps_console | intros _ ].
    apply keeps_bind; [ apply make_api_keeps_messages | intros api ].
    apply keeps_bind; [ apply fetch_data_keeps_messages | intros d ].
    apply keeps_bind; [ apply keeps_console | intros _ ].
    apply keeps_bind_never.
    + apply compute_diff_keeps_messages.
    + apply compute_diff_never_returns. exact Hd.
  - apply never_returns_bind. intros _.
    apply never_returns_bind. intros api.
    apply never_returns_bind. intros d.
    apply never_returns_bind. intros _.
    apply never_returns_bind_l. apply compute_diff_never_returns. exact Hd.
Qed.

(** ** The interactive loop *)

Lemma chat_turn_never_returns (w : World) (args : Args) (u : string) :
  never_returns (chat_turn w args u).
Proof. intros st a st'. rewrite chat_turn_run. discriminate. Qed.

Lemma interactive_chat_never_returns (w : World) (args : Args) (inputs : list string) :
  never_returns (interactive_chat w args inputs).
Proof.
  induction inputs as [|u rest IH]; simpl.
  - apply never_returns_raise.
  - apply never_returns_bind. intros _.
    destruct (String.eqb u "exit"); [ apply never_returns_raise | ].
    apply never_returns_bind. intros _. exact IH.
Qed.

(** X17. The interactive loop ends only by an exception.  At the end of
    the input it is [EOFError]; on the word [exit] it is the exit with
    status 0, with the conversation as it was and no request made; and
    since any other first line ends the loop as well, the lines after the
    first are never read. *)
Theorem X17_interactive_loop_outcomes (w : World) (args : Args) (st : State) :
  interactive_chat w args [] st = (Raise EOFError, st)
  /\ (forall rest,
        interactive_chat w args ("exit" :: rest) st
        = (Raise (SystemExit 0),
           {| st_log := st_log st
                          ++ [EConsoleInput "[magenta][bold]You:[/bold][/magenta] " "exit"];
              st_messages := st_messages st |}))
  /\ (forall inputs a st', interactive_chat w args inputs st <> (Ok a, st'))
  /\ (forall u rest,
        interactive_chat w args (u :: rest) st = interactive_chat w args [u] st).
Proof.
  split; [ reflexivity | ]. split; [ reflexivity | ]. split.
  - intros inputs. apply interactive_chat_never_returns.
  - intros u rest. simpl. apply bind_ext. intros _ s.
    destruct (String.eqb u "exit"); [ reflexivity | ].
    unfold bind. rewrite chat_turn_run. reflexivity.
Qed.

(** ** The review stage and whole runs *)

Lemma analyze_self_hosted_usage (w : World) (t ds : pyval) (diff gpt_type : string)
    (pp : bool) (url : option string) (st st' : State)
    (r : pyval * option CompletionUsage * list message) :
  gpt_type ∉ OPENAI_GPT_TYPES ->
  analyze_pr_with_GPT w t ds diff gpt_type pp url st = (Ok r, st') ->
  snd (fst r) = None.
Proof.
  intros Hout H.
  pose proof (analyze_pr_with_GPT_run w t ds diff gpt_type pp url st) as Hrun.
  cbv zeta in Hrun. rewrite Hrun in H. clear Hrun.
  match type of H with
  | context [generate_llm_response ?a ?b ?c ?d ?s] =>
      pose proof (generate_self_hosted_run a b c d s Hout) as Hs; cbv zeta in Hs;
      destruct Hs as (_ & Hu & _);
      destruct (generate_llm_response a b c d s) as [[[resp u]|e0] s2]
  end; [ | discriminate H ].
  injection H as <- _. simpl. exact (Hu resp u eq_refl).
Qed.

(** X18. The table of usage metrics is shown only for hosted models: with
    a model outside [OPENAI_GPT_TYPES] the review stage never prints it,
    and whenever the first reply comes with usage metrics the table with
    the three token counts is printed. *)
Theorem X18_usage_table_only_with_metrics (w : World) (args : Args)
    (d : StashAPI.data) (diff : string) (inputs : list string) :
  (llm_type args ∉ OPENAI_GPT_TYPES ->
   emits_only (fun ev => ~ is_usage_table ev) (review w args d diff inputs))
  /\ (forall st resp u ms st',
        analyze_pr_with_GPT w (StashAPI.pr_title d) (StashAPI.pr_description d) diff
          (llm_type args) (show_prompt args) (llm_url args) st
        = (Ok (resp, Some u, ms), st') ->
        In (EConsoleTable "OpenAPI Usage Metrics"
              [("completion_tokens", str_of_int (completion_tokens u));
               ("prompt_tokens", str_of_int (prompt_tokens u));
               ("total_tokens", str_of_int (total_tokens u))])
           (st_log (snd (review w args d diff inputs st)))).
Proof.
  split.
  - intros Hout. unfold review.
    apply (emits_bind_post _ (fun r => snd (fst r) = None)).
    + intros st r st' H. exact (analyze_self_hosted_usage _ _ _ _ _ _ _ _ _ _ Hout H).
    + apply analyze_emits; intros; exact id.
    + intros r Hr. cbv zeta. rewrite Hr.
      pose proof (interactive_chat_emits w args inputs (fun ev => ~ is_usage_table ev)
                    (fun _ => id) (fun _ _ => id)) as Hi.
      emits_with ltac:(exact id).
  - intros st resp u ms st' H. unfold review.
    rewrite (bind_ok _ _ _ _ _ H). cbv zeta. simpl fst. simpl snd.
    unfold bind at 1. unfold console_print_table at 1. rewrite console_call_run.
    destruct (console_render w (st_log st') _) as [rendered|i].
    + match goal with
      | |- In _ (st_log (snd (?m ?s))) =>
          assert (Hm : emits_only (fun _ => True) m);
          [ | destruct (Hm s) as (evs & Hl & _); rewrite Hl ]
      end.
      * pose proof (interactive_chat_emits w args inputs (fun _ => True)
                      (fun _ => I) (fun _ _ => I)) as Hi.
        emits_with ltac:(exact I).
      * simpl. apply in_or_app. left. apply in_or_app. right. left. reflexivity.
    + simpl. apply in_or_app. right. left. reflexivity.
Qed.

Lemma review_without_interaction (w : World) (args : Args) (d : StashAPI.data)
    (diff : string) (inputs : list string) (st : State) :
  interactive args = false ->
  review w args d diff inputs st = review w args d diff [] st.
Proof. intros H. unfold review. rewrite H. reflexivity. Qed.

(** X19. Without the interactive flag the user is never asked for a line:
    a run does not depend on what could be typed, and no input is read. *)
Theorem X19_no_input_without_the_flag (w : World) (args : Args) (inputs : list string) :
  interactive args = false ->
  (forall st, main w args inputs st = main w args [] st)
  /\ emits_only (fun ev => ~ is_console_input ev) (main w args inputs).
Proof.
  intros Hi. split.
  - intros st. unfold main.
    do 5 (apply bind_ext; intros ? ?).
    apply review_without_interaction. exact Hi.
  - unfold main, console_print_table.
    apply emits_bind; [ apply emits_console; exact id | intros _ ].
    apply emits_bind; [ apply make_api_emits; exact id | intros api ].
    apply emits_bind; [ apply fetch_data_emits; intros; exact id | intros d ].
    apply emits_bind; [ apply emits_console; exact id | intros _ ].
    apply emits_bind; [ apply compute_diff_emits; intros; exact id | intros diff ].
    unfold review, console_print_table. rewrite Hi.
    pose proof (fun t ds pp url =>
                  analyze_emits w t ds diff (llm_type args) pp url
                    (fun ev => ~ is_console_input ev)
                    (fun _ _ => id) (fun _ _ => id) (fun _ => id)) as Ha.
    emits_with ltac:(exact id).
Qed.

(** X20. With the interactive flag [main] never returns normally: the loop
    has no way out but an exception, so such a run always ends in one (the
    exit with status 0 on the word [exit] among them). *)
Theorem X20_interactive_run_ends_in_an_exception (w : World) (args : Args)
    (inputs : list string) :
  interactive args = true -> never_returns (main w args inputs).
Proof.
  intros Hi. unfold main.
  apply never_returns_bind. intros _.
  apply never_returns_bind. intros api.
  apply never_returns_bind. intros d.
  apply never_returns_bind. intros _.
  apply never_returns_bind. intros diff.
  unfold review. rewrite Hi.
  apply never_returns_bind. intros r. cbv zeta.
  apply never_returns_bind. intros _.
  apply never_returns_bind. intros _.
  apply never_returns_bind. intros _.
  apply never_returns_bind. intros _.
  apply never_returns_bind. intros _.
  apply never_returns_bind. intros _.
  apply never_returns_bind. intros _.
  apply interactive_chat_never_returns.
Qed.

Section EndToEnd.

Variable w : World.
Variable args : Args.
Variable inputs : list string.
Variable st : State.

Variables tok key : string.
Variable info : gmap string pyval.
Variables pr_diff_data to_hash from_hash title links self_links first href : pyval.
Variables ns dm : string.
Variable completion : ChatCompletion.
Variable reply : pyval.
Variable others : list pyval.

Let stash_headers : list (string * string) :=
  [("Authorization", "Bearer " +:+ tok); ("Accept", "application/json")].
Let description : pyval :=
  match info !! "description" with
  | Some v => v
  | None => PStr EmptyString
  end.
Let seed : list message :=
  seed_messages w title description (combine_diff ns dm).

Hypothesis service_supported : service args = "stash" \/ service args = "bitbucket".
Hypothesis token_set : environ w !! "STASH_HTTP_ACCESS_TOKEN" = Some tok.
Hypothesis key_set : environ w !! "OPENAI_API_KEY" = Some key.
Hypothesis hosted_model : llm_type args ∈ OPENAI_GPT_TYPES.
Hypothesis review_wanted : show_diff_only args = false.
Hypothesis no_chat : interactive args = false.
Hypothesis info_answer :
  forall h, requests_get_json w h (pull_request_url args) stash_headers
            = Returned (PDict info).
Hypothesis diff_answer :
  forall h, requests_get_json w h (pull_request_url args +:+ "/diff") stash_headers
            = Returned pr_diff_data.
Hypothesis has_toHash : getitem_str pr_diff_data "toHash" = Ok to_hash.
Hypothesis has_fromHash : getitem_str pr_diff_data "fromHash" = Ok from_hash.
Hypothesis has_title : getitem_str (PDict info) "title" = Ok title.
Hypothesis has_links : getitem_str (PDict info) "links" = Ok links.
Hypothesis has_self : getitem_str links "self" = Ok self_links.
Hypothesis has_first : getitem_int self_links 0 = Ok first.
Hypothesis has_href : getitem_str first "href" = Ok href.
Hypothesis name_status_answer :
  forall h, subprocess_check_output w h (name_status_cmd from_hash to_hash) = Returned ns.
Hypothesis unified_diff_answer :
  forall h, subprocess_check_output w h (unified_diff_cmd args from_hash to_hash)
            = Returned dm.
Hypothesis completion_answer :
  forall h, chat_completions_create w h (Some key) (llm_type args) seed
            = Returned completion.
Hypothesis first_choice : choices completion = reply :: others.

Let api0 : StashAPI.t :=
  {| StashAPI.stash_token := PStr tok;
     StashAPI.api_base_url := base_url args;
     StashAPI.api_project_key := project_key args;
     StashAPI.repo_slug := repo args;
     StashAPI.pr_id := pull_request_id args;
     StashAPI.headers := stash_headers |}.

Let d0 : StashAPI.data :=
  {| StashAPI.to_commit := to_hash;
     StashAPI.from_commit := from_hash;
     StashAPI.pr_title := title;
     StashAPI.pr_description := description;
     StashAPI.pr_link := href |}.

Hypothesis arguments_rendered :
  forall h, console_render w h
              (EConsoleTable "Arguments"
                 (map (fun kv => (fst kv, py_format w (snd kv))) (vars args)))
            = Returned tt.
Hypothesis info_rendered :
  forall h, console_render w h
              (EConsoleTable "Info"
                 (map (fun kv => (fst kv, py_format w (snd kv))) (data_items d0)))
            = Returned tt.
Hypothesis usage_rendered :
  forall h u, usage completion = Some u ->
    console_render w h
      (EConsoleTable "OpenAPI Usage Metrics"
         [("completion_tokens", str_of_int (completion_tokens u));
          ("prompt_tokens", str_of_int (prompt_tokens u));
          ("total_tokens", str_of_int (total_tokens u))])
    = Returned tt.
Hypothesis reply_rendered :
  forall h, console_render w h (EConsoleMarkdown reply) = Returned tt.

Lemma make_api_ok (s : State) : make_api w args s = (Ok api0, s).
Proof.
  unfold make_api.
  assert (Hsel : String.eqb (service args) "stash" || String.eqb (service args) "bitbucket"
                 = true).
  { destruct service_supported as [-> | ->]; reflexivity. }
  rewrite Hsel. unfold StashAPI.__init__, StashAPI.os_environ_getitem.
  rewrite token_set. reflexivity.
Qed.

Lemma fetch_data_ok (s : State) :
  exists s', fetch_data w api0 s = (Ok d0, s')
             /\ st_messages s' = st_messages s
             /\ exists evs, st_log s' = st_log s ++ evs.
Proof.
  pose proof (get_data_ok w api0 s (PDict info) pr_diff_data (info_answer _)
                (diff_answer _) info to_hash from_hash title links self_links first href
                eq_refl has_toHash has_fromHash has_title has_links has_self has_first
                has_href) as Hget.
  cbv zeta in Hget.
  eexists. unfold fetch_data, try_except. rewrite Hget.
  split; [ reflexivity | ]. split; [ reflexivity | ].
  simpl. rewrite <- app_assoc. eexists. reflexivity.
Qed.

Lemma compute_diff_ok (s : State) :
  exists s', compute_diff w args d0 s = (Ok (combine_diff ns dm), s')
             /\ st_messages s' = st_messages s
             /\ exists evs,
                  st_log s' = st_log s ++ ESubprocess (name_status_cmd from_hash to_hash) :: evs.
Proof.
  pose proof (compute_diff_run w args d0 s) as Hrun. cbv zeta in Hrun.
  change (StashAPI.from_commit d0) with from_hash in Hrun.
  change (StashAPI.to_commit d0) with to_hash in Hrun.
  rewrite name_status_answer, unified_diff_answer, review_wanted in Hrun.
  eexists. split; [ exact Hrun | ].
  destruct (String.length dm =? 0)%nat; simpl.
  - split; [ reflexivity | ]. rewrite <- !app_assoc. eexists. reflexivity.
  - split; [ reflexivity | ]. rewrite <- !app_assoc. eexists. reflexivity.
Qed.

Lemma analyze_ok (s : State) :
  exists s',
    analyze_pr_with_GPT w title description (combine_diff ns dm) (llm_type args)
      (show_prompt args) (llm_url args) s
    = (Ok (reply, usage completion, seed ++ [Message "assistant" reply]), s')
    /\ st_messages s' = seed ++ [Message "assistant" reply]
    /\ exists evs1 evs2,
         st_log s' = (st_log s ++ evs1)
                       ++ EOpenAICreate (Some key) (llm_type args) seed :: evs2.
Proof.
  pose proof (analyze_pr_with_GPT_run w title description (combine_diff ns dm)
                (llm_type args) (show_prompt args) (llm_url args) s) as Hrun.
  cbv zeta in Hrun. fold seed in Hrun.
  rewrite (generate_hosted_run w (llm_type args) seed (llm_url args) _ key
             hosted_model key_set) in Hrun.
  rewrite completion_answer, first_choice in Hrun.
  eexists. split; [ exact Hrun | ]. split; [ reflexivity | ].
  simpl. destruct (show_prompt args).
  - eexists. exists []. reflexivity.
  - exists [], []. rewrite app_nil_r. reflexivity.
Qed.

(** X21. A whole successful run.  With a supported service, the token and
    the API key set, a hosted model, both REST answers holding the members
    read, both git commands answering, the backend giving at least one
    choice, and the console rendering what it is given (the two tables,
    the usage table if there is one, the reply as Markdown), a
    non-interactive [main] returns normally.  The git listing was taken
    between the two hashes of the diff summary; the backend was sent
    exactly the four seed messages built from the fetched title and
    description (the empty string when absent) and from the two git
    outputs; its first choice was rendered and is the fifth and last
    message of the conversation. *)
Theorem X21_successful_review :
  exists st',
    main w args inputs st = (Ok tt, st')
    /\ st_messages st' = seed ++ [Message "assistant" reply]
    /\ In (ESubprocess (name_status_cmd from_hash to_hash)) (st_log st')
    /\ In (EOpenAICreate (Some key) (llm_type args) seed) (st_log st')
    /\ In (EConsoleMarkdown reply) (st_log st').
Proof.
  unfold main, console_print_table.
  unfold bind at 1. rewrite console_call_run, arguments_rendered.
  rewrite (bind_ok _ _ _ _ _ (make_api_ok _)).
  match goal with
  | |- context [bind (fetch_data w api0) _ ?s] =>
      destruct (fetch_data_ok s) as (p2 & Hfetch & _ & _)
  end.
  rewrite (bind_ok _ _ _ _ _ Hfetch).
  unfold bind at 1. rewrite console_call_run, info_rendered.
  match goal with
  | |- context [bind (compute_diff w args d0) _ ?s] =>
      destruct (compute_diff_ok s) as (p4 & Hdiff & _ & evs_git & Hgit)
  end.
  rewrite (bind_ok _ _ _ _ _ Hdiff).
  unfold review, console_print_table.
  change (StashAPI.pr_title d0) with title.
  change (StashAPI.pr_description d0) with description.
  destruct (analyze_ok p4) as (p5 & Hanalyze & Hmsgs & evs1 & evs2 & Hllm).
  rewrite (bind_ok _ _ _ _ _ Hanalyze).
  cbv zeta. cbn [fst snd]. rewrite no_chat.
  assert (Hin_git : In (ESubprocess (name_status_cmd from_hash to_hash)) (st_log p5)).
  { rewrite Hllm, Hgit. rewrite !in_app_iff. left. left. right. left. reflexivity. }
  assert (Hin_llm : In (EOpenAICreate (Some key) (llm_type args) seed) (st_log p5)).
  { rewrite Hllm. rewrite in_app_iff. right. left. reflexivity. }
  destruct (usage completion) as [u|] eqn:Hu.
  - unfold bind at 1. cbn [map fst snd py_format].
    rewrite console_call_run, (usage_rendered _ u eq_refl).
    unfold bind at 1. unfold emit at 1.
    unfold bind at 1. rewrite console_call_run, reply_rendered.
    unfold bind, emit, ret. cbn [fst snd st_log st_messages].
    eexists. split; [ reflexivity | ].
    cbn [st_log st_messages]. rewrite !in_app_iff. cbn [In].
    split; [ exact Hmsgs | ]. tauto.
  - unfold bind at 1. unfold ret at 1.
    unfold bind at 1. unfold emit at 1.
    unfold bind at 1. rewrite console_call_run, reply_rendered.
    unfold bind, emit, ret. cbn [fst snd st_log st_messages].
    eexists. split; [ reflexivity | ].
    cbn [st_log st_messages]. rewrite !in_app_iff. cbn [In].
    split; [ exact Hmsgs | ]. tauto.
Qed.

End EndToEnd.

(** ** The prototype script *)

(** X22. The script [test.py] asks for the diff summary of one fixed pull
    request.  Without the token in the environment it stops at the lookup,
    before any request; with it, it makes exactly one GET to that address
    with the token as bearer, and prints the answer or passes the failure
    on.  Its test for a token that is [None] never fires. *)
Theorem X22_test_script_one_request (w : World) (st : State) :
  TestScript.URL
  = "http://stash.doclerholding.com/rest/api/latest/projects/MSYS/repos/manager/pull-requests/85/diff"
  /\ (environ w !! "STASH_HTTP_ACCESS_TOKEN" = None ->
        TestScript.script w st = (Raise (KeyError (PStr "STASH_HTTP_ACCESS_TOKEN")), st))
  /\ (forall tok, environ w !! "STASH_HTTP_ACCESS_TOKEN" = Some tok ->
        let hd := [("Authorization", "Bearer " +:+ tok); ("Accept", "application/json")] in
        let asked := {| st_log := st_log st ++ [EHttpGet TestScript.URL hd];
                        st_messages := st_messages st |} in
        (forall i, requests_get_json w (st_log st) TestScript.URL hd = Failed i ->
           TestScript.script w st = (Raise (ExternalError i), asked))
        /\ (forall j, requests_get_json w (st_log st) TestScript.URL hd = Returned j ->
              TestScript.script w st
              = (Ok tt, {| st_log := st_log asked ++ [EPrint (py_format w j)];
                           st_messages := st_messages st |})))
  /\ (forall msg, fst (TestScript.script w st) <> Raise (Exception_ msg)).
Proof.
  split; [ reflexivity | ]. split; [ | split ].
  - intros H. unfold TestScript.script, StashAPI.os_environ_getitem. rewrite H. reflexivity.
  - intros tok H hd asked. subst hd asked.
    unfold TestScript.script, StashAPI.os_environ_getitem. rewrite H.
    unfold bind, ret, external, emit. cbn [py_format].
    split.
    + intros i Hi. rewrite Hi. reflexivity.
    + intros j Hj. rewrite Hj. reflexivity.
  - intros msg. unfold TestScript.script, StashAPI.os_environ_getitem.
    destruct (environ w !! "STASH_HTTP_ACCESS_TOKEN") as [tok|]; [ | discriminate ].
    unfold bind, ret, external, emit. cbn [py_format].
    destruct (requests_get_json w (st_log st) _ _); discriminate.
Qed.

(** ** The further properties at concrete invocations *)

Lemma llama_local_not_hosted : "llama-local" ∉ OPENAI_GPT_TYPES.
Proof.
  rewrite OPENAI_GPT_TYPES_spec. intros [H|[H|[H|H]]]; discriminate H.
Defined.

Lemma gpt_4_hosted : "gpt-4" ∈ OPENAI_GPT_TYPES.
Proof. apply OPENAI_GPT_TYPES_spec. right. right. right. reflexivity. Defined.

Lemma X1_validation_precedes_effects_witness :
  main_entry Example.world Scenario.ns_no_base ["hello"] initial_state
  = (Raise (ValueError "Base URL is not set"), initial_state).
Proof.
  apply (proj1 (X1_validation_precedes_effects Example.world Scenario.ns_no_base
                  ["hello"] initial_state)).
  reflexivity.
Defined.

Lemma X2_unsupported_service_stops_early_witness :
  fst (main Example.world Scenario.args_github [] initial_state)
  = Raise (NotImplementedError "GitHub is not implemented yet").
Proof.
  rewrite (X2_unsupported_service_stops_early Example.world Scenario.args_github []
             initial_state).
  - reflexivity.
  - discriminate.
  - discriminate.
Defined.

Lemma X3_missing_token_is_uncaught_witness :
  fst (main Example.world_without_token Example.args ["hello"] initial_state)
  = Raise (KeyError (PStr "STASH_HTTP_ACCESS_TOKEN")).
Proof.
  rewrite (X3_missing_token_is_uncaught Example.world_without_token Example.args
             ["hello"] initial_state).
  - reflexivity.
  - left. reflexivity.
  - reflexivity.
Defined.

Lemma X4_failed_fetch_exits_with_1_witness :
  fst (main Scenario.world_unreachable Example.args ["hello"] initial_state)
  = Raise (SystemExit 1).
Proof.
  destruct (X4_failed_fetch_exits_with_1 Scenario.world_unreachable Example.args
              ["hello"] initial_state Example.api (ExternalError "connection refused")
              (snd (StashAPI.get_data Scenario.world_unreachable Example.api
                      {| st_log :=
                           [EConsoleTable "Arguments"
                              (map (fun kv => (fst kv, py_format Scenario.world_unreachable
                                                          (snd kv)))
                                 (vars Example.args))];
                         st_messages := [] |})))
    as (Hrun & _).
  - reflexivity.
  - reflexivity.
  - reflexivity.
  - rewrite Hrun. reflexivity.
Defined.

Lemma X5_two_requests_in_order_witness :
  st_log (snd (StashAPI.get_data Example.world Example.api initial_state))
  = [EHttpGet (StashAPI.url_info Example.api) (StashAPI.headers Example.api);
     EHttpGet (StashAPI.url_diff Example.api) (StashAPI.headers Example.api)]
  /\ StashAPI.get_data Scenario.world_unreachable Example.api initial_state
     = (Raise (ExternalError "connection refused"),
        {| st_log := [EHttpGet (StashAPI.url_info Example.api)
                        (StashAPI.headers Example.api)];
           st_messages := [] |}).
Proof.
  split.
  - rewrite (proj2 (X5_two_requests_in_order Example.world Example.api initial_state)
               (PDict Example.info_fields) eq_refl).
    reflexivity.
  - apply (proj1 (X5_two_requests_in_order Scenario.world_unreachable Example.api
                    initial_state)).
    reflexivity.
Defined.

Lemma X6_credentials_stay_with_their_service_witness :
  emits_only (credentials_policy "s3cr3t" Example.args)
    (main Example.world Example.args ["hello"; "exit"]).
Proof.
  apply X6_credentials_stay_with_their_service. reflexivity.
Defined.

Lemma X7_first_failing_lookup_decides_witness :
  fst (StashAPI.get_data Scenario.world_no_hashes Example.api initial_state)
  = Raise (KeyError (PStr "toHash")).
Proof.
  destruct (X7_first_failing_lookup_decides Scenario.world_no_hashes Example.api
              initial_state (PDict Example.info_fields) (PDict ∅) eq_refl eq_refl)
    as (_ & H & _).
  rewrite (H ∅ eq_refl eq_refl). reflexivity.
Defined.

Lemma X8_present_description_is_kept_witness :
  fst (StashAPI.get_data Scenario.world_null_description Example.api initial_state)
  = Ok {| StashAPI.to_commit := PStr "b2";
          StashAPI.from_commit := PStr "a1";
          StashAPI.pr_title := PStr "Fix parser";
          StashAPI.pr_description := PNone;
          StashAPI.pr_link := PStr "http://stash.local/pr/85" |}.
Proof.
  destruct (X8_present_description_is_kept Scenario.world_null_description Example.api
              initial_state
              (PDict (<[ "description" := PNone ]> Example.info_fields))
              (PDict Example.diff_fields) eq_refl eq_refl
              (<[ "description" := PNone ]> Example.info_fields) PNone eq_refl eq_refl)
    as (_ & H).
  rewrite (H (PStr "b2") (PStr "a1") (PStr "Fix parser")
             (PDict {[ "self" := PList [PDict {[ "href" := PStr "http://stash.local/pr/85" ]}] ]})
             (PList [PDict {[ "href" := PStr "http://stash.local/pr/85" ]}])
             (PDict {[ "href" := PStr "http://stash.local/pr/85" ]})
             (PStr "http://stash.local/pr/85")
             eq_refl eq_refl eq_refl eq_refl eq_refl eq_refl eq_refl).
  reflexivity.
Defined.

Lemma X10_malformed_answers_witness :
  fst (generate_llm_response Scenario.world_bad_backends "llama-local" []
         (Some "http://localhost:8000") initial_state)
  = Raise (KeyError (PStr "choices")).
Proof.
  destruct (X10_malformed_answers Scenario.world_bad_backends "llama-local" []
              initial_state (Some "http://localhost:8000")) as (H & _).
  destruct (H llama_local_not_hosted (PDict ∅) eq_refl) as (_ & Hmissing & _).
  exact (Hmissing ∅ eq_refl eq_refl).
Defined.

Lemma X12_failed_review_leaves_the_seed_witness :
  st_messages
    (snd (analyze_pr_with_GPT Scenario.world_bad_backends (PStr "Fix parser")
            (PStr EmptyString) Example.diff_output "gpt-4" false None initial_state))
  = seed_messages Scenario.world_bad_backends (PStr "Fix parser") (PStr EmptyString)
      Example.diff_output.
Proof.
  apply (X12_failed_review_leaves_the_seed Scenario.world_bad_backends (PStr "Fix parser")
           (PStr EmptyString) Example.diff_output "gpt-4" false None initial_state _
           (ExternalError "timeout")).
  vm_compute. reflexivity.
Defined.

Lemma X14_notice_iff_unified_diff_empty_witness :
  exists evs,
    st_log (snd (compute_diff Example.world Example.args Example.data initial_state))
    = [ESubprocess (name_status_cmd (PStr "a1") (PStr "b2"));
       ESubprocess (unified_diff_cmd Example.args (PStr "a1") (PStr "b2"))] ++ evs
    /\ (In (EPrint no_modifications_notice) evs <-> EmptyString = EmptyString).
Proof.
  exact (X14_notice_iff_unified_diff_empty Example.world Example.args Example.data
           initial_state Example.name_status EmptyString eq_refl eq_refl).
Defined.

Lemma X15_git_failure_aborts_the_stage_witness :
  compute_diff Scenario.world_no_git Example.args Example.data initial_state
  = (Raise (ExternalError "not a git repository"),
     {| st_log := [ESubprocess (name_status_cmd (PStr "a1") (PStr "b2"))];
        st_messages := [] |}).
Proof.
  apply (proj1 (X15_git_failure_aborts_the_stage Scenario.world_no_git Example.args
                  Example.data initial_state)).
  reflexivity.
Defined.

Lemma X16_diff_only_never_reaches_the_llm_witness :
  emits_only (fun ev => ~ is_llm_request ev)
    (main Example.world Scenario.args_diff_only [])
  /\ never_returns (main Example.world Scenario.args_diff_only []).
Proof.
  destruct (X16_diff_only_never_reaches_the_llm Example.world Scenario.args_diff_only []
              eq_refl) as (H1 & _ & H2).
  split; assumption.
Defined.

Lemma X18_usage_table_only_with_metrics_witness :
  emits_only (fun ev => ~ is_usage_table ev)
    (review Example.world Scenario.args_local Example.data Example.diff_output []).
Proof.
  apply (proj1 (X18_usage_table_only_with_metrics Example.world Scenario.args_local
                  Example.data Example.diff_output [])).
  exact llama_local_not_hosted.
Defined.

Lemma X19_no_input_without_the_flag_witness :
  main Example.world Scenario.args_batch ["hello"; "exit"] initial_state
  = main Example.world Scenario.args_batch [] initial_state.
Proof.
  apply (proj1 (X19_no_input_without_the_flag Example.world Scenario.args_batch
                  ["hello"; "exit"] eq_refl)).
Defined.

Lemma X20_interactive_run_ends_in_an_exception_witness :
  never_returns (main Example.world Example.args ["exit"]).
Proof.
  apply X20_interactive_run_ends_in_an_exception. reflexivity.
Defined.

Lemma X21_successful_review_witness :
  exists st',
    main Example.world Scenario.args_batch [] initial_state = (Ok tt, st')
    /\ st_messages st'
       = seed_messages Example.world (PStr "Fix parser") (PStr EmptyString)
           Example.diff_output
         ++ [Message "assistant" (PStr "LGTM")].
Proof.
  destruct (X21_successful_review Example.world Scenario.args_batch [] initial_state
              "s3cr3t" "sk-test" Example.info_fields (PDict Example.diff_fields)
              (PStr "b2") (PStr "a1") (PStr "Fix parser")
              (PDict {[ "self" := PList [PDict {[ "href" := PStr "http://stash.local/pr/85" ]}] ]})
              (PList [PDict {[ "href" := PStr "http://stash.local/pr/85" ]}])
              (PDict {[ "href" := PStr "http://stash.local/pr/85" ]})
              (PStr "http://stash.local/pr/85")
              Example.name_status EmptyString
              {| choices := [PStr "LGTM"]; usage := Some Example.usage_metrics |}
              (PStr "LGTM") [])
    as (st' & Hrun & Hmsgs & _);
    first [ exact gpt_4_hosted
          | left; reflexivity
          | intros h u Hu; injection Hu as <-; reflexivity
          | intros h; reflexivity
          | reflexivity
          | idtac ].
  exists st'. split; [ exact Hrun | exact Hmsgs ].
Defined.

Lemma X22_test_script_one_request_witness :
  TestScript.script Example.world_without_token initial_state
  = (Raise (KeyError (PStr "STASH_HTTP_ACCESS_TOKEN")), initial_state).
Proof.
  apply (proj1 (proj2 (X22_test_script_one_request Example.world_without_token
                         initial_state))).
  reflexivity.
Defined.

(** ** An empty unified diff (C5) *)

Section Growth.

Context {A B : Type}.



End Growth.


Section ReviewEntered.

Variable w : World.
Variable args : Args.
Variable d : StashAPI.data.
Variable diff : string.
Variable inputs : list string.

Let seed : list message :=
  seed_messages w (StashAPI.pr_title d) (StashAPI.pr_description d) diff.





End ReviewEntered.

Section EmptyDiff.

Variable w : World.
Variable args : Args.
Variable inputs : list string.
Variable st : State.
Variable api : StashAPI.t.
Variable d : StashAPI.data.
Variable fetched : State.
Variable ns : string.

Let arguments_table : Event :=
  EConsoleTable "Arguments" (map (fun kv => (fst kv, py_format w (snd kv))) (vars args)).
Let printed : State :=
  {| st_log := st_log st ++ [arguments_table]; st_messages := st_messages st |}.
Let info_table : Event :=
  EConsoleTable "Info" (map (fun kv => (fst kv, py_format w (snd kv))) (data_items d)).
Let s0 : State :=
  {| st_log := st_log fetched ++ [info_table]; st_messages := st_messages fetched |}.
Let cmd1 : list pyval := name_status_cmd (StashAPI.from_commit d) (StashAPI.to_commit d).
Let cmd2 : list pyval := unified_diff_cmd args (StashAPI.from_commit d) (StashAPI.to_commit d).
Let s1 : State :=
  {| st_log := st_log s0 ++ [ESubprocess cmd1]; st_messages := st_messages s0 |}.


(** The combined text, and the conversation seeded from it. *)
Let text : string := combine_diff ns EmptyString.
Let seed : list message :=
  seed_messages w (StashAPI.pr_title d) (StashAPI.pr_description d) text.

Hypothesis arguments_rendered :
  console_render w (st_log st) arguments_table = Returned tt.
Hypothesis provider_built : make_api w args printed = (Ok api, printed).
Hypothesis data_fetched : fetch_data w api printed = (Ok d, fetched).
Hypothesis info_rendered : console_render w (st_log fetched) info_table = Returned tt.
Hypothesis listing : subprocess_check_output w (st_log s0) cmd1 = Returned ns.
Hypothesis empty_diff : subprocess_check_output w (st_log s1) cmd2 = Returned EmptyString.




End EmptyDiff.


